(** * ESR-Forecast: the hybrid forecast engine

    A shallow embedding of the forecasting model of the repository
    ([src/lib/model/constants.ts], [protocol.ts], [execution.ts] and
    [forecast.ts]) together with the properties stated about it.

    Conventions of the embedding.

    - A JavaScript [number] is modelled by a real number: arithmetic is
      exact, and rounding, overflow, [NaN] and the infinities of IEEE
      doubles are outside the model.  Rocq's division is total
      ([x / 0 = 0]) where JavaScript yields [Infinity] or [NaN]; the
      theorems therefore assume what keeps the denominators away from
      zero: a positive validator count, a total APR that is not zero, a
      stake of at least one gwei (below which the floored square root
      of [getBaseRewardPerEpoch] is 0).
    - [Math.floor] is [Zfloor], [Math.sqrt] is [sqrt], [Math.pow] with a
      positive base is [Rpower], [Math.max]/[Math.min] are [Rmax]/[Rmin].
    - A [Date] is its [getTime()] value, an integer number of
      milliseconds; [setDate(getDate() + d)] adds [d] days of 86 400 000 ms
      (a time zone without daylight-saving transitions).
    - [Array.prototype.sort] is stable; it is modelled by a stable
      insertion sort driven by the source's comparator.
    - [Math.random()] and [new Date()] read an explicit [World]. *)

From Stdlib Require Import String.
From Stdlib Require Import Reals Lra Lia ZArith List Bool Permutation Sorted.
Import ListNotations.

Open Scope R_scope.

(** ** JavaScript primitives *)

Module JS.

Definition floor (x : R) : R := IZR (Zfloor x).

Definition msPerDay : Z := (24 * 60 * 60 * 1000)%Z.

(** [d.setDate(d.getDate() + n)] on the time value of [d]. *)
Definition addDays (t : Z) (n : Z) : Z := (t + n * msPerDay)%Z.

(** [x >= y] as a condition. *)
Definition geb (x y : R) : bool := if Rge_dec x y then true else false.

(** Insertion of [x] in front of the first element it does not follow. *)
Fixpoint insert {A : Type} (cmp : A -> A -> Z) (x : A) (l : list A) : list A :=
  match l with
  | [] => [x]
  | y :: t => if (cmp x y <=? 0)%Z then x :: y :: t else y :: insert cmp x t
  end.

(** [[...l].sort(cmp)]: a stable sort of a copy of [l]. *)
Fixpoint sort {A : Type} (cmp : A -> A -> Z) (l : list A) : list A :=
  match l with
  | [] => []
  | x :: t => insert cmp x (sort cmp t)
  end.

(** [l.slice(0, n)]. *)
Definition slice0 {A : Type} (n : nat) (l : list A) : list A := firstn n l.

Fixpoint filter_from {A : Type} (keep : A -> nat -> bool) (i : nat) (l : list A)
  : list A :=
  match l with
  | [] => []
  | x :: t =>
      if keep x i then x :: filter_from keep (S i) t
      else filter_from keep (S i) t
  end.

(** [l.filter((x, i) => keep x i)]. *)
Definition filter {A : Type} (keep : A -> nat -> bool) (l : list A) : list A :=
  filter_from keep 0 l.

(** The outcome of a call that may [throw new Error(msg)]. *)
Inductive result (A : Type) : Type :=
| Ok (value : A)
| Throw (message : String.string).

Arguments Ok {A} value.
Arguments Throw {A} message.

(** The ambient state read by [new Date()] and [Math.random()]:
    the clock, the sequence of values [Math.random] will return, and the
    number of values already drawn. *)
Record World : Type := mkWorld {
  clock : Z;
  randoms : nat -> R;
  drawn : nat
}.

Definition random (w : World) : R * World :=
  (randoms w (drawn w), mkWorld (clock w) (randoms w) (S (drawn w))).

End JS.

(** ** simple-statistics *)

Module Stats.

Definition sum (l : list R) : R := fold_right Rplus 0 l.

(** [mean(l)]; the library throws on an empty array, which no call site
    of the model reaches. *)
Definition mean (l : list R) : R := sum l / INR (length l).

(** [standardDeviation(l)]: the population standard deviation. *)
Definition standardDeviation (l : list R) : R :=
  let m := mean l in
  sqrt (sum (map (fun x => (x - m) * (x - m)) l) / INR (length l)).

End Stats.

(** ** constants.ts *)

Module Constants.

Definition SECONDS_PER_SLOT : R := 12.
Definition SLOTS_PER_EPOCH : R := 32.
Definition SECONDS_PER_EPOCH : R := SECONDS_PER_SLOT * SLOTS_PER_EPOCH.
Definition EPOCHS_PER_DAY : R := (24 * 60 * 60) / SECONDS_PER_EPOCH.
Definition EPOCHS_PER_YEAR : R := EPOCHS_PER_DAY * (36525 / 100).

Definition MIN_PER_EPOCH_CHURN_LIMIT : R := 4.
Definition CHURN_LIMIT_QUOTIENT : R := 65536.

Definition BASE_REWARD_FACTOR : R := 64.
Definition BASE_REWARDS_PER_EPOCH : R := 4.

Definition TOTAL_ETH_SUPPLY : R := 120000000.

End Constants.

(** ** protocol.ts *)

Module Protocol.
Import Constants.

Definition gwei : R := 1000000000.

Definition getBaseRewardPerEpoch (effectiveBalance totalEffectiveBalance : R) : R :=
  let effectiveBalanceGwei := effectiveBalance * gwei in
  let totalEffectiveBalanceGwei := totalEffectiveBalance * gwei in
  let baseReward :=
    (effectiveBalanceGwei * BASE_REWARD_FACTOR) /
    JS.floor (sqrt totalEffectiveBalanceGwei) in
  baseReward / gwei.

Definition getTheoreticalAPR (totalStakedETH : R) : R :=
  if Rle_dec totalStakedETH 0 then 0
  else
    let baseRewardPerEpoch := getBaseRewardPerEpoch 32 totalStakedETH in
    let rewardsPerEpoch := baseRewardPerEpoch * BASE_REWARDS_PER_EPOCH in
    let annualRewards := rewardsPerEpoch * EPOCHS_PER_YEAR in
    (annualRewards / 32) * 100.

Definition getChurnLimit (activeValidatorCount : R) : R :=
  Rmax MIN_PER_EPOCH_CHURN_LIMIT
       (JS.floor (activeValidatorCount / CHURN_LIMIT_QUOTIENT)).

Definition getStakeRatio (totalStakedETH : R) : R :=
  (totalStakedETH / TOTAL_ETH_SUPPLY) * 100.

Definition getEquilibriumStakeForAPR (targetAPR : R) : R :=
  if Rle_dec targetAPR 0 then TOTAL_ETH_SUPPLY
  else
    let numerator :=
      BASE_REWARD_FACTOR * BASE_REWARDS_PER_EPOCH * EPOCHS_PER_YEAR * 100 in
    let sqrtTotalStakeGwei := numerator / targetAPR in
    let totalStakeGwei := sqrtTotalStakeGwei * sqrtTotalStakeGwei in
    totalStakeGwei / gwei.

End Protocol.

(** ** execution.ts *)

Module Execution.

Inductive FeeRegime : Type := calm | elevated | hot.

Definition FeeRegime_eqb (a b : FeeRegime) : bool :=
  match a, b with
  | calm, calm | elevated, elevated | hot, hot => true
  | _, _ => false
  end.

Record ExecutionDataPoint : Type := mkExecutionDataPoint {
  timestamp : Z;
  priorityFeesETH : R;
  mevRewardsETH : R;
  avgGasPrice : R;
  blockCount : R
}.

Record TransitionRow : Type := mkTransitionRow {
  toCalm : R;
  toElevated : R;
  toHot : R
}.

Record RegimeDetection : Type := mkRegimeDetection {
  currentRegime : FeeRegime;
  regimeConfidence : R;
  daysInRegime : nat;
  transitionProbability : TransitionRow
}.

Record Band : Type := mkBand {
  lower : R;
  upper : R
}.

Record YieldComponents : Type := mkYieldComponents {
  priorityFees : R;
  mevRewards : R
}.

Record ExecutionYieldForecast : Type := mkExecutionYieldForecast {
  dailyYieldETH : R;
  annualizedAPR : R;
  regime : FeeRegime;
  confidence : Band;
  components : YieldComponents
}.

(** [REGIME_THRESHOLDS] *)
Definition calm_max : R := 1 / 1000.
Definition elevated_min : R := 1 / 1000.
Definition elevated_max : R := 3 / 1000.
Definition hot_min : R := 3 / 1000.

Definition TRANSITION_MATRIX (r : FeeRegime) : TransitionRow :=
  match r with
  | calm => mkTransitionRow (85 / 100) (12 / 100) (3 / 100)
  | elevated => mkTransitionRow (25 / 100) (55 / 100) (20 / 100)
  | hot => mkTransitionRow (10 / 100) (40 / 100) (50 / 100)
  end.

Record Reversion : Type := mkReversion {
  target : R;
  halfLife : R
}.

Definition MEAN_REVERSION (r : FeeRegime) : Reversion :=
  match r with
  | calm => mkReversion (5 / 10000) 7
  | elevated => mkReversion (2 / 1000) 5
  | hot => mkReversion (4 / 1000) 3
  end.

Definition classifyYield (yieldPerValidator : R) : FeeRegime :=
  if Rlt_dec yieldPerValidator calm_max then calm
  else if Rlt_dec yieldPerValidator elevated_max then elevated
  else hot.

(** The loop counting the leading points of [sorted] classified as
    [currentRegime], stopping at the first other one. *)
Fixpoint countDaysInRegime (currentRegime : FeeRegime) (activeValidators : R)
  (sorted : list ExecutionDataPoint) : nat :=
  match sorted with
  | [] => 0%nat
  | point :: rest =>
      let yield_ := (priorityFeesETH point + mevRewardsETH point) / activeValidators in
      let pointRegime := classifyYield yield_ in
      if FeeRegime_eqb pointRegime currentRegime
      then S (countDaysInRegime currentRegime activeValidators rest)
      else 0%nat
  end.

(** The comparator [(a, b) => b.timestamp.getTime() - a.timestamp.getTime()]. *)
Definition byTimestampDesc (a b : ExecutionDataPoint) : Z :=
  (timestamp b - timestamp a)%Z.

Definition detectRegime (history : list ExecutionDataPoint) (activeValidators : R)
  : RegimeDetection :=
  match history with
  | [] =>
      {| currentRegime := calm;
         regimeConfidence := 5 / 10;
         daysInRegime := 0;
         transitionProbability := TRANSITION_MATRIX calm |}
  | _ :: _ =>
      let sorted := JS.sort byTimestampDesc history in
      let recentDays := JS.slice0 7 sorted in
      let dailyYields :=
        map (fun d =>
               let totalYield := priorityFeesETH d + mevRewardsETH d in
               totalYield / activeValidators) recentDays in
      let avgYield := Stats.mean dailyYields in
      let yieldStd :=
        if (1 <? length dailyYields)%nat
        then Stats.standardDeviation dailyYields
        else avgYield * (3 / 10) in
      let classified : FeeRegime * R :=
        if Rlt_dec avgYield calm_max then
          (calm, 1 - avgYield / calm_max)
        else if Rlt_dec avgYield elevated_max then
          let range := elevated_max - elevated_min in
          let position := (avgYield - elevated_min) / range in
          (elevated, 1 - Rabs (position - 5 / 10) * 2)
        else
          (hot, Rmin 1 ((avgYield - hot_min) / (2 / 1000))) in
      let currentRegime := fst classified in
      let confidence := snd classified in
      let daysInRegime := countDaysInRegime currentRegime activeValidators sorted in
      {| currentRegime := currentRegime;
         regimeConfidence := Rmax (3 / 10) (Rmin 1 confidence);
         daysInRegime := daysInRegime;
         transitionProbability := TRANSITION_MATRIX currentRegime |}
  end.

(** One pass of the body of [for (let d = 0; d < daysAhead; d++)] on
    [(calmProb, elevatedProb, hotProb)]. *)
Definition stepProbabilities (p : R * R * R) : R * R * R :=
  let '(calmProb, elevatedProb, hotProb) := p in
  let newCalm :=
    calmProb * toCalm (TRANSITION_MATRIX calm) +
    elevatedProb * toCalm (TRANSITION_MATRIX elevated) +
    hotProb * toCalm (TRANSITION_MATRIX hot) in
  let newElevated :=
    calmProb * toElevated (TRANSITION_MATRIX calm) +
    elevatedProb * toElevated (TRANSITION_MATRIX elevated) +
    hotProb * toElevated (TRANSITION_MATRIX hot) in
  let newHot :=
    calmProb * toHot (TRANSITION_MATRIX calm) +
    elevatedProb * toHot (TRANSITION_MATRIX elevated) +
    hotProb * toHot (TRANSITION_MATRIX hot) in
  (newCalm, newElevated, newHot).

Definition initialProbabilities (currentRegime : FeeRegime) : R * R * R :=
  (if FeeRegime_eqb currentRegime calm then 1 else 0,
   if FeeRegime_eqb currentRegime elevated then 1 else 0,
   if FeeRegime_eqb currentRegime hot then 1 else 0).

Definition mostLikelyRegime (p : R * R * R) : FeeRegime :=
  let '(calmProb, elevatedProb, hotProb) := p in
  if JS.geb calmProb elevatedProb && JS.geb calmProb hotProb then calm
  else if JS.geb elevatedProb hotProb then elevated
  else hot.

Definition forecastExecutionYield (currentYield : R) (currentRegime : FeeRegime)
  (daysAhead : nat) (activeValidators : R) : ExecutionYieldForecast :=
  let reversion := MEAN_REVERSION currentRegime in
  let transitions := TRANSITION_MATRIX currentRegime in
  let decayFactor := Rpower (5 / 10) (INR daysAhead / halfLife reversion) in
  let revertedYield :=
    currentYield * decayFactor + target reversion * (1 - decayFactor) in
  let probabilities :=
    Nat.iter daysAhead stepProbabilities (initialProbabilities currentRegime) in
  let expectedRegime := mostLikelyRegime probabilities in
  let regimeTarget := target (MEAN_REVERSION expectedRegime) in
  let finalYield := revertedYield * (7 / 10) + regimeTarget * (3 / 10) in
  let annualizedAPR := (finalYield * 365 / 32) * 100 in
  let uncertaintyFactor := 1 + sqrt (INR daysAhead) * (1 / 10) in
  let feeRatio := 4 / 10 in
  let priorityFees := finalYield * feeRatio in
  let mevRewards := finalYield * (1 - feeRatio) in
  {| dailyYieldETH := finalYield;
     annualizedAPR := annualizedAPR;
     regime := expectedRegime;
     confidence :=
       {| lower := annualizedAPR / uncertaintyFactor;
          upper := annualizedAPR * uncertaintyFactor |};
     components :=
       {| priorityFees := (priorityFees * 365 / 32) * 100;
          mevRewards := (mevRewards * 365 / 32) * 100 |} |}.

(** The body of [for (let i = days; i >= 0; i--)], run for the indices
    [remaining - 1] down to [0]; it threads the regime of the walk, its
    dwell counter and the world that supplies the random draws. *)
Fixpoint mockLoop (remaining : nat) (now : Z) (activeValidators : R)
  (currentRegime : FeeRegime) (daysInCurrentRegime : nat) (w : JS.World)
  : list ExecutionDataPoint * JS.World :=
  match remaining with
  | O => ([], w)
  | S i =>
      let date := JS.addDays now (- Z.of_nat i) in
      let trans := TRANSITION_MATRIX currentRegime in
      let '(roll, w1) := JS.random w in
      let '(currentRegime', daysInCurrentRegime') :=
        if Rlt_dec roll (toCalm trans) then
          (calm, if FeeRegime_eqb currentRegime calm then daysInCurrentRegime else 0%nat)
        else if Rlt_dec roll (toCalm trans + toElevated trans) then
          (elevated,
           if FeeRegime_eqb currentRegime elevated then daysInCurrentRegime else 0%nat)
        else
          (hot, if FeeRegime_eqb currentRegime hot then daysInCurrentRegime else 0%nat) in
      let daysInCurrentRegime'' := S daysInCurrentRegime' in
      let baseYield := target (MEAN_REVERSION currentRegime') * activeValidators in
      let '(r2, w2) := JS.random w1 in
      let noise := (r2 - 5 / 10) * baseYield * (4 / 10) in
      let totalYield := Rmax 0 (baseYield + noise) in
      let '(r3, w3) := JS.random w2 in
      let feeRatio := 35 / 100 + r3 * (1 / 10) in
      let priorityFeesETH := totalYield * feeRatio in
      let mevRewardsETH := totalYield * (1 - feeRatio) in
      let baseGas :=
        match currentRegime' with
        | hot => 50
        | elevated => 25
        | calm => 10
        end in
      let '(r4, w4) := JS.random w3 in
      let avgGasPrice := baseGas + r4 * 10 in
      let point :=
        {| timestamp := date;
           priorityFeesETH := priorityFeesETH;
           mevRewardsETH := mevRewardsETH;
           avgGasPrice := avgGasPrice;
           blockCount := 7200 |} in
      let '(rest, w') :=
        mockLoop i now activeValidators currentRegime' daysInCurrentRegime'' w4 in
      (point :: rest, w')
  end.

Definition generateMockExecutionHistory (days : nat) (activeValidators : R)
  (w : JS.World) : list ExecutionDataPoint * JS.World :=
  let now := JS.clock w in
  mockLoop (S days) now activeValidators calm 0 w.

End Execution.

(** ** forecast.ts *)

Module Forecast.
Import Constants Protocol Execution.

(** [HistoricalDataPoint]; its fields live in a module of their own
    because [ForecastPoint] has a field of the same name. *)
Module History.
Record HistoricalDataPoint : Type := mkHistoricalDataPoint {
  timestamp : Z;
  totalStakedETH : R;
  activeValidators : R;
  entryQueueLength : R;
  exitQueueLength : R;
  observedAPR : option R
}.
End History.
Abbreviation HistoricalDataPoint := History.HistoricalDataPoint.

Record DriverAttribution : Type := mkDriverAttribution {
  consensusAPR : R;
  executionAPR : R;
  totalAPR : R;
  consensusPct : R;
  executionPct : R;
  priorityFeesPct : R;
  mevPct : R;
  feeRegime : FeeRegime
}.

Record ForecastComponents : Type := mkForecastComponents {
  protocolBase : R;
  trendAdjustment : R;
  queueConstraint : R
}.

Record ForecastPoint : Type := mkForecastPoint {
  date : Z;
  totalStakedETH : R;
  stakeRatio : R;
  forecastAPR : R;
  confidence : Band;
  components : ForecastComponents;
  drivers : DriverAttribution
}.

(** ['calm' | 'elevated' | 'hot' | 'current'] *)
Inductive FeeRegimeBias : Type :=
| forced (r : FeeRegime)
| current.

Record ScenarioParams : Type := mkScenarioParams {
  netFlowBias : R;
  mevMultiplier : R;
  queuePressure : R;
  feeRegimeBias : FeeRegimeBias
}.

Definition DEFAULT_SCENARIO : ScenarioParams :=
  {| netFlowBias := 0;
     mevMultiplier := 1;
     queuePressure := 1;
     feeRegimeBias := current |}.

(** The result of [calculateStakingTrend].  Its [r2] field, a squared
    correlation that no function of the model reads, is not represented. *)
Record StakingTrend : Type := mkStakingTrend {
  dailyGrowthRate : R;
  volatility : R
}.

Definition byTimestampAsc (a b : HistoricalDataPoint) : Z :=
  (History.timestamp a - History.timestamp b)%Z.

Definition byTimestampDesc (a b : HistoricalDataPoint) : Z :=
  (History.timestamp b - History.timestamp a)%Z.

(** The loop [for (let i = 1; i < sortedHistory.length; i++)], with
    [previous] standing for [sortedHistory[i - 1]]. *)
Fixpoint dailyChangesFrom (previous : HistoricalDataPoint)
  (rest : list HistoricalDataPoint) : list R :=
  match rest with
  | [] => []
  | point :: rest' =>
      let daysDiff :=
        IZR (History.timestamp point - History.timestamp previous) /
        (24 * 60 * 60 * 1000) in
      let stakeDiff := History.totalStakedETH point - History.totalStakedETH previous in
      if Rgt_dec daysDiff 0
      then (stakeDiff / daysDiff) :: dailyChangesFrom point rest'
      else dailyChangesFrom point rest'
  end.

Definition calculateStakingTrend (history : list HistoricalDataPoint) : StakingTrend :=
  if (length history <? 2)%nat then
    {| dailyGrowthRate := 0; volatility := 0 |}
  else
    let sortedHistory := JS.sort byTimestampAsc history in
    let dailyChanges :=
      match sortedHistory with
      | [] => []
      | first :: rest => dailyChangesFrom first rest
      end in
    match dailyChanges with
    | [] => {| dailyGrowthRate := 0; volatility := 0 |}
    | _ :: _ =>
        let avgDailyGrowth := Stats.mean dailyChanges in
        let volatility :=
          if (1 <? length dailyChanges)%nat
          then Stats.standardDeviation dailyChanges
          else 0 in
        {| dailyGrowthRate := avgDailyGrowth; volatility := volatility |}
    end.

Definition calculateQueuePressure
  (entryQueueLength exitQueueLength activeValidators : R) : R :=
  let churnLimit := getChurnLimit activeValidators in
  let validatorsPerDay := churnLimit * EPOCHS_PER_DAY in
  let entryDays := entryQueueLength / validatorsPerDay in
  let exitDays := exitQueueLength / validatorsPerDay in
  entryQueueLength - exitQueueLength.

Definition getMaxDailyStakeChange (activeValidators : R) : R :=
  let churnLimit := getChurnLimit activeValidators in
  let validatorsPerDay := churnLimit * EPOCHS_PER_DAY in
  validatorsPerDay * 32.

Definition applyAPRFeedback (baseGrowthRate currentAPR targetAPR : R) : R :=
  let aprDiff := currentAPR - targetAPR in
  let feedbackFactor := aprDiff * (1 / 10) in
  baseGrowthRate * (1 + feedbackFactor).

(** The default value of [targetAPR]. *)
Definition defaultTargetAPR : R := 4.

(** The running state of the daily loop of [generateForecast]. *)
Record SimState : Type := mkSimState {
  currentStake : R;
  currentValidators : R;
  currentEntryQueue : R;
  currentExitQueue : R
}.

Section DailyLoop.

(** What the loop reads and never writes. *)
Variable latestState : HistoricalDataPoint.
Variable trend : StakingTrend.
Variable scenario : ScenarioParams.
Variable maxDailyChange : R.
Variable currentExecYield : R.
Variable baseRegime : FeeRegime.

(** One pass of the body of [for (let day = 1; day <= daysToForecast; day++)]:
    the point pushed on [forecasts] and the updated running state. *)
Definition forecastDay (day : nat) (st : SimState) : ForecastPoint * SimState :=
  let forecastDate := JS.addDays (History.timestamp latestState) (Z.of_nat day) in
  let consensusAPR := getTheoreticalAPR (currentStake st) in
  let execForecast :=
    forecastExecutionYield currentExecYield baseRegime day (currentValidators st) in
  let adjustedExecAPR := annualizedAPR execForecast * mevMultiplier scenario in
  let totalAPR := consensusAPR + adjustedExecAPR in
  let drivers :=
    {| consensusAPR := consensusAPR;
       executionAPR := adjustedExecAPR;
       totalAPR := totalAPR;
       consensusPct := (consensusAPR / totalAPR) * 100;
       executionPct := (adjustedExecAPR / totalAPR) * 100;
       priorityFeesPct :=
         (priorityFees (Execution.components execForecast) / adjustedExecAPR) *
         (adjustedExecAPR / totalAPR) * 100;
       mevPct :=
         (mevRewards (Execution.components execForecast) / adjustedExecAPR) *
         (adjustedExecAPR / totalAPR) * 100;
       feeRegime := regime execForecast |} in
  let expectedGrowth0 :=
    applyAPRFeedback
      (dailyGrowthRate trend + netFlowBias scenario * maxDailyChange * (1 / 10))
      totalAPR defaultTargetAPR in
  let netQueueFlow := (currentEntryQueue st - currentExitQueue st) * 32 in
  let expectedGrowth :=
    if Rgt_dec expectedGrowth0 0
    then Rmin expectedGrowth0 maxDailyChange
    else Rmax expectedGrowth0 (- maxDailyChange) in
  let currentStake' := Rmax 0 (currentStake st + expectedGrowth) in
  let currentValidators' := JS.floor (currentStake' / 32) in
  let dailyChurn := getChurnLimit currentValidators' * EPOCHS_PER_DAY in
  let currentEntryQueue' := Rmax 0 (currentEntryQueue st - dailyChurn) in
  let currentExitQueue' := Rmax 0 (currentExitQueue st - dailyChurn) in
  let daysFromStart := INR day in
  let uncertaintyGrowth := sqrt daysFromStart * volatility trend * 32 in
  let confidenceMultiplier := 196 / 100 in
  let stakeRatio := getStakeRatio currentStake' in
  ({| date := forecastDate;
      totalStakedETH := currentStake';
      stakeRatio := stakeRatio;
      forecastAPR := totalAPR;
      confidence :=
        {| lower := Rmax 0 (currentStake' - confidenceMultiplier * uncertaintyGrowth);
           upper := currentStake' + confidenceMultiplier * uncertaintyGrowth |};
      components :=
        {| protocolBase := consensusAPR;
           trendAdjustment := expectedGrowth;
           queueConstraint := maxDailyChange |};
      drivers := drivers |},
   {| currentStake := currentStake';
      currentValidators := currentValidators';
      currentEntryQueue := currentEntryQueue';
      currentExitQueue := currentExitQueue' |}).

(** The loop run for [remaining] days starting at [day]; the points in
    the order they are pushed. *)
Fixpoint forecastLoop (remaining : nat) (day : nat) (st : SimState)
  : list ForecastPoint :=
  match remaining with
  | O => []
  | S remaining' =>
      let '(point, st') := forecastDay day st in
      point :: forecastLoop remaining' (S day) st'
  end.

End DailyLoop.

(** The callback of the final [filter]: monthly snapshots and the last day. *)
Definition isSnapshot (total : nat) (_ : ForecastPoint) (i : nat) : bool :=
  (((i + 1) mod 30 =? 0) || (i =? total - 1))%nat.

Definition noHistoryMessage : String.string := "No historical data provided"%string.

(** What reading a property of [sortedHistory[0]] throws when the array
    is empty; the guard on [history.length] keeps this out of reach. *)
Definition undefinedMessage : String.string :=
  "Cannot read properties of undefined"%string.

Definition generateForecast (w : JS.World) (history : list HistoricalDataPoint)
  (monthsAhead : nat) (scenario : ScenarioParams)
  (executionHistory : option (list ExecutionDataPoint))
  : JS.result (list ForecastPoint) * JS.World :=
  match history with
  | [] => (JS.Throw noHistoryMessage, w)
  | _ :: _ =>
      let sortedHistory := JS.sort byTimestampDesc history in
      match sortedHistory with
      | [] => (JS.Throw undefinedMessage, w)
      | latestState :: _ =>
          let trend := calculateStakingTrend history in
          let queuePressure :=
            calculateQueuePressure
              (History.entryQueueLength latestState * queuePressure scenario)
              (History.exitQueueLength latestState * queuePressure scenario)
              (History.activeValidators latestState) in
          let maxDailyChange :=
            getMaxDailyStakeChange (History.activeValidators latestState) in
          let '(execHistory, w') :=
            match executionHistory with
            | Some supplied => (supplied, w)
            | None =>
                generateMockExecutionHistory 90 (History.activeValidators latestState) w
            end in
          let regimeDetection :=
            detectRegime execHistory (History.activeValidators latestState) in
          let baseRegime :=
            match feeRegimeBias scenario with
            | current => currentRegime regimeDetection
            | forced r => r
            end in
          let recentExec := JS.slice0 7 execHistory in
          let currentExecYield :=
            match recentExec with
            | _ :: _ =>
                Stats.mean
                  (map (fun d =>
                          (priorityFeesETH d + mevRewardsETH d) /
                          History.activeValidators latestState) recentExec)
            | [] => 1 / 1000
            end in
          let daysToForecast := (monthsAhead * 30)%nat in
          let forecasts :=
            forecastLoop latestState trend scenario maxDailyChange currentExecYield
              baseRegime daysToForecast 1
              {| currentStake := History.totalStakedETH latestState;
                 currentValidators := History.activeValidators latestState;
                 currentEntryQueue := History.entryQueueLength latestState;
                 currentExitQueue := History.exitQueueLength latestState |} in
          (JS.Ok (JS.filter (isSnapshot (length forecasts)) forecasts), w')
      end
  end.

Record ScenarioComparison : Type := mkScenarioComparison {
  baseline : list ForecastPoint;
  bullish : list ForecastPoint;
  bearish : list ForecastPoint
}.

Definition BULLISH_SCENARIO : ScenarioParams :=
  {| netFlowBias := 5 / 10;
     mevMultiplier := 13 / 10;
     queuePressure := 15 / 10;
     feeRegimeBias := forced elevated |}.

Definition BEARISH_SCENARIO : ScenarioParams :=
  {| netFlowBias := - (5 / 10);
     mevMultiplier := 7 / 10;
     queuePressure := 5 / 10;
     feeRegimeBias := forced calm |}.

Definition compareScenarios (w : JS.World) (history : list HistoricalDataPoint)
  (monthsAhead : nat) (executionHistory : option (list ExecutionDataPoint))
  : JS.result ScenarioComparison * JS.World :=
  match generateForecast w history monthsAhead DEFAULT_SCENARIO executionHistory with
  | (JS.Throw e, w1) => (JS.Throw e, w1)
  | (JS.Ok baseline, w1) =>
      match generateForecast w1 history monthsAhead BULLISH_SCENARIO executionHistory with
      | (JS.Throw e, w2) => (JS.Throw e, w2)
      | (JS.Ok bullish, w2) =>
          match generateForecast w2 history monthsAhead BEARISH_SCENARIO executionHistory with
          | (JS.Throw e, w3) => (JS.Throw e, w3)
          | (JS.Ok bearish, w3) =>
              (JS.Ok {| baseline := baseline; bullish := bullish; bearish := bearish |}, w3)
          end
      end
  end.

End Forecast.

(** ** Views of a run of [generateForecast]

    The values [generateForecast] binds before and during its loop, as
    functions of its arguments, so that statements can name them. *)

Module Run.
Import Constants Protocol Execution Forecast.

(** [latestState], if [sortedHistory] has a first element. *)
Definition latestStateOf (history : list HistoricalDataPoint)
  : option HistoricalDataPoint :=
  match JS.sort byTimestampDesc history with
  | [] => None
  | latestState :: _ => Some latestState
  end.

(** [execHistory] and the world after it is obtained. *)
Definition execHistoryOf (w : JS.World) (latestState : HistoricalDataPoint)
  (executionHistory : option (list ExecutionDataPoint))
  : list ExecutionDataPoint * JS.World :=
  match executionHistory with
  | Some supplied => (supplied, w)
  | None => generateMockExecutionHistory 90 (History.activeValidators latestState) w
  end.

Definition baseRegimeOf (latestState : HistoricalDataPoint)
  (scenario : ScenarioParams) (execHistory : list ExecutionDataPoint) : FeeRegime :=
  match feeRegimeBias scenario with
  | current =>
      currentRegime (detectRegime execHistory (History.activeValidators latestState))
  | forced r => r
  end.

Definition currentExecYieldOf (latestState : HistoricalDataPoint)
  (execHistory : list ExecutionDataPoint) : R :=
  match JS.slice0 7 execHistory with
  | _ :: _ =>
      Stats.mean
        (map (fun d =>
                (priorityFeesETH d + mevRewardsETH d) /
                History.activeValidators latestState) (JS.slice0 7 execHistory))
  | [] => 1 / 1000
  end.

Definition initialState (latestState : HistoricalDataPoint) : SimState :=
  {| currentStake := History.totalStakedETH latestState;
     currentValidators := History.activeValidators latestState;
     currentEntryQueue := History.entryQueueLength latestState;
     currentExitQueue := History.exitQueueLength latestState |}.

Section Days.

Variable latestState : HistoricalDataPoint.
Variable trend : StakingTrend.
Variable scenario : ScenarioParams.
Variable maxDailyChange : R.
Variable currentExecYield : R.
Variable baseRegime : FeeRegime.

Let day_ := forecastDay latestState trend scenario maxDailyChange currentExecYield
              baseRegime.

(** The running state once [d] days have been simulated. *)
Fixpoint stateAfter (st0 : SimState) (d : nat) : SimState :=
  match d with
  | O => st0
  | S d' => snd (day_ (S d') (stateAfter st0 d'))
  end.

(** The point pushed on day [d] (for [d >= 1]). *)
Definition pointOn (st0 : SimState) (d : nat) : ForecastPoint :=
  fst (day_ d (stateAfter st0 (d - 1))).

(** [trend.dailyGrowthRate + scenario.netFlowBias * maxDailyChange * 0.1]. *)
Definition baseGrowth : R :=
  dailyGrowthRate trend + netFlowBias scenario * maxDailyChange * (1 / 10).

(** [totalAPR] on day [d] when the running stake is [stake]. *)
Definition totalAPROn (d : nat) (stake : R) : R :=
  getTheoreticalAPR stake +
  annualizedAPR (forecastExecutionYield currentExecYield baseRegime d 0) *
  mevMultiplier scenario.

(** [expectedGrowth], after the queue constraint, on day [d] when the
    running stake is [stake]. *)
Definition growthOn (d : nat) (stake : R) : R :=
  let expectedGrowth0 := applyAPRFeedback baseGrowth (totalAPROn d stake) defaultTargetAPR in
  if Rgt_dec expectedGrowth0 0
  then Rmin expectedGrowth0 maxDailyChange
  else Rmax expectedGrowth0 (- maxDailyChange).

End Days.

(** The point a run pushes on day [d], from the arguments of the run
    and the execution history it uses. *)
Definition dayPoint (history : list HistoricalDataPoint)
  (latestState : HistoricalDataPoint) (scenario : ScenarioParams)
  (execHistory : list ExecutionDataPoint) (d : nat) : ForecastPoint :=
  pointOn latestState (calculateStakingTrend history) scenario
    (getMaxDailyStakeChange (History.activeValidators latestState))
    (currentExecYieldOf latestState execHistory)
    (baseRegimeOf latestState scenario execHistory)
    (initialState latestState) d.

(** The array [forecasts] of a run once its loop is over. *)
Definition dailyForecasts (history : list HistoricalDataPoint)
  (latestState : HistoricalDataPoint) (scenario : ScenarioParams)
  (execHistory : list ExecutionDataPoint) (monthsAhead : nat) : list ForecastPoint :=
  forecastLoop latestState (calculateStakingTrend history) scenario
    (getMaxDailyStakeChange (History.activeValidators latestState))
    (currentExecYieldOf latestState execHistory)
    (baseRegimeOf latestState scenario execHistory)
    (monthsAhead * 30) 1 (initialState latestState).

(** The days whose points [generateForecast] returns. *)
Definition snapshotDays (monthsAhead : nat) : list nat :=
  map (fun k => (30 * k)%nat) (seq 1 monthsAhead).

(** The index of the last day of a month. *)
Definition monthEnd (i : nat) : bool := ((i + 1) mod 30 =? 0)%nat.

(** The numerator [64 * 4 * EPOCHS_PER_YEAR * 100] of the APR formula. *)
Definition aprNumerator : R :=
  BASE_REWARD_FACTOR * BASE_REWARDS_PER_EPOCH * EPOCHS_PER_YEAR * 100.

(** The floored square root of the stake in gwei, the denominator of
    [getBaseRewardPerEpoch]. *)
Definition rootGwei (totalStakedETH : R) : R := JS.floor (sqrt (totalStakedETH * gwei)).

End Run.

(** ** Sample inputs

    The state of the example of the specification (34.5 million ETH
    staked by 1 078 125 validators, queues of 2 500 and 800), one day of
    execution rewards, and a world. *)

Module Sample.
Import Execution Forecast.

Definition state : HistoricalDataPoint :=
  {| History.timestamp := 0;
     History.totalStakedETH := 34500000;
     History.activeValidators := 1078125;
     History.entryQueueLength := 2500;
     History.exitQueueLength := 800;
     History.observedAPR := None |}.

Definition history : list HistoricalDataPoint := [state].

Definition execution : list ExecutionDataPoint :=
  [ {| timestamp := 0;
       priorityFeesETH := 800;
       mevRewardsETH := 1200;
       avgGasPrice := 20;
       blockCount := 7200 |} ].

Definition world : JS.World :=
  {| JS.clock := 0; JS.randoms := fun _ => 0; JS.drawn := 0 |}.

(** The rewards of the day [k] days after the epoch. *)
Definition rewards (k : Z) (fees mev : R) : ExecutionDataPoint :=
  {| timestamp := (k * JS.msPerDay)%Z;
     priorityFeesETH := fees;
     mevRewardsETH := mev;
     avgGasPrice := 20;
     blockCount := 7200 |}.

(** Eight days of rewards, most recent first: seven ordinary days after
    a day that paid twice as much. *)
Definition newestFirst : list ExecutionDataPoint :=
  [ rewards 8 800 1200; rewards 7 800 1200; rewards 6 800 1200;
    rewards 5 800 1200; rewards 4 800 1200; rewards 3 800 1200;
    rewards 2 800 1200; rewards 1 1600 2400 ].

(** The same eight records, oldest first. *)
Definition oldestFirst : list ExecutionDataPoint := rev newestFirst.

(** The day before [state]: 40 320 ETH less at stake. *)
Definition earlier : HistoricalDataPoint :=
  {| History.timestamp := (- JS.msPerDay)%Z;
     History.totalStakedETH := 34459680;
     History.activeValidators := 1076865;
     History.entryQueueLength := 2500;
     History.exitQueueLength := 800;
     History.observedAPR := None |}.


(** One day of very large rewards: 2 ETH per validator. *)
Definition boom : list ExecutionDataPoint := [rewards 0 862500 1293750].

(** The trend of [growing]. *)
Definition trend40320 : StakingTrend := {| dailyGrowthRate := 40320; volatility := 0 |}.

End Sample.

(** ** protocol.ts, the functions around the reward curve *)

Module Metrics.
Import Constants Protocol.

(** [Math.ceil]. *)
Definition ceil (x : R) : R := IZR (Zceil x).

Definition getRealisticAPR (totalStakedETH networkParticipation mevBoostAdoption
  averageMEVRewardPerBlock : R) : R :=
  let baseAPR := getTheoreticalAPR totalStakedETH in
  let adjustedAPR := baseAPR * networkParticipation in
  let numValidators := JS.floor (totalStakedETH / 32) in
  let slotsPerYear := EPOCHS_PER_YEAR * 32 in
  let blocksPerValidatorPerYear := slotsPerYear / numValidators in
  let mevAPR :=
    (blocksPerValidatorPerYear * averageMEVRewardPerBlock * mevBoostAdoption / 32) * 100 in
  adjustedAPR + mevAPR.

(** The default values of the last three parameters of [getRealisticAPR]. *)
Definition defaultNetworkParticipation : R := 995 / 1000.
Definition defaultMevBoostAdoption : R := 90 / 100.
Definition defaultAverageMEVRewardPerBlock : R := 5 / 100.

Definition getActivationQueueWaitTime (queueLength activeValidatorCount : R) : R :=
  let churnLimit := getChurnLimit activeValidatorCount in
  ceil (queueLength / churnLimit).

Definition getExitQueueWaitTime (queueLength activeValidatorCount : R) : R :=
  let churnLimit := getChurnLimit activeValidatorCount in
  ceil (queueLength / churnLimit).

Definition epochsToDays (epochs : R) : R :=
  (epochs * SECONDS_PER_EPOCH) / (24 * 60 * 60).

Record ProtocolState : Type := mkProtocolState {
  totalStakedETH : R;
  activeValidators : R;
  entryQueueLength : R;
  exitQueueLength : R;
  networkParticipation : R
}.

(** The object returned by [deriveMetrics]. *)
Record DerivedMetrics : Type := mkDerivedMetrics {
  stakeRatio : R;
  theoreticalAPR : R;
  realisticAPR : R;
  churnLimit : R;
  entryQueueDays : R;
  exitQueueDays : R;
  validatorsPerDay : R
}.

Definition deriveMetrics (state : ProtocolState) : DerivedMetrics :=
  let stakeRatio := getStakeRatio (totalStakedETH state) in
  let theoreticalAPR := getTheoreticalAPR (totalStakedETH state) in
  let realisticAPR :=
    getRealisticAPR (totalStakedETH state) (networkParticipation state)
      defaultMevBoostAdoption defaultAverageMEVRewardPerBlock in
  let churnLimit := getChurnLimit (activeValidators state) in
  let entryQueueDays :=
    epochsToDays
      (getActivationQueueWaitTime (entryQueueLength state) (activeValidators state)) in
  let exitQueueDays :=
    epochsToDays
      (getExitQueueWaitTime (exitQueueLength state) (activeValidators state)) in
  {| stakeRatio := stakeRatio;
     theoreticalAPR := theoreticalAPR;
     realisticAPR := realisticAPR;
     churnLimit := churnLimit;
     entryQueueDays := entryQueueDays;
     exitQueueDays := exitQueueDays;
     validatorsPerDay := churnLimit * (24 * 60 * 60 / SECONDS_PER_EPOCH) |}.

End Metrics.

(** ** beacon.ts, the two pure functions *)

Module Beacon.

Record EpochStats : Type := mkEpochStats {
  epoch : R;
  validatorsCount : R;
  averageValidatorBalance : R;
  totalValidatorBalance : R;
  eligibleEther : R;
  globalParticipationRate : R;
  votedEther : R
}.

Definition calculateTotalStaked (activeValidators avgBalance : R) : R :=
  activeValidators * avgBalance.

(** The loop [for (let i = 1; i < recentEpochs.length; i++)], with
    [previous] standing for [recentEpochs[i - 1]]. *)
Fixpoint rewardsFrom (previous : EpochStats) (rest : list EpochStats) : list R :=
  match rest with
  | [] => []
  | current :: rest' =>
      let balanceDiff := totalValidatorBalance current - totalValidatorBalance previous in
      (balanceDiff / validatorsCount current) :: rewardsFrom current rest'
  end.

(** The default value of [periodsPerYear]. *)
Definition defaultPeriodsPerYear : R := 82125.

Definition estimateAPRFromEpochs (recentEpochs : list EpochStats) (periodsPerYear : R)
  : R :=
  if (length recentEpochs <? 2)%nat then 0
  else
    let rewards :=
      match recentEpochs with
      | [] => []
      | first :: rest => rewardsFrom first rest
      end in
    let avgRewardPerValidator :=
      fold_left (fun a b => a + b) rewards 0 / INR (length rewards) in
    let annualReward := avgRewardPerValidator * periodsPerYear in
    let avgStake := 32 in
    (annualReward / avgStake) * 100.

End Beacon.

(** ** Notions used by the further properties *)

Module Notions.
Import Execution Forecast.

(** A row of transition probabilities is a distribution. *)
Definition isDistribution (row : TransitionRow) : Prop :=
  0 <= toCalm row /\ 0 <= toElevated row /\ 0 <= toHot row /\
  toCalm row + toElevated row + toHot row = 1.

(** The occupancy probabilities [forecastExecutionYield] holds after its
    loop. *)
Definition occupancy (currentRegime : FeeRegime) (daysAhead : nat) : R * R * R :=
  Nat.iter daysAhead stepProbabilities (initialProbabilities currentRegime).

(** The probability a triple [(calmProb, elevatedProb, hotProb)] gives to
    a regime. *)
Definition probabilityOf (p : R * R * R) (r : FeeRegime) : R :=
  let '(calmProb, elevatedProb, hotProb) := p in
  match r with
  | calm => calmProb
  | elevated => elevatedProb
  | hot => hotProb
  end.

(** The per-validator yield of one day of execution rewards. *)
Definition yieldOf (activeValidators : R) (d : ExecutionDataPoint) : R :=
  (priorityFeesETH d + mevRewardsETH d) / activeValidators.

(** [Math.random] returns values in the interval from 0 (included) to 1
    (excluded). *)
Definition unitRandoms (w : JS.World) : Prop :=
  forall n, 0 <= JS.randoms w n < 1.

(** What every record of a mock history satisfies. *)
Definition mockRecord (activeValidators : R) (d : ExecutionDataPoint) : Prop :=
  0 <= priorityFeesETH d /\ 0 <= mevRewardsETH d /\
  (exists r : FeeRegime,
     8 / 10 * (target (MEAN_REVERSION r) * activeValidators) <=
       priorityFeesETH d + mevRewardsETH d <=
     12 / 10 * (target (MEAN_REVERSION r) * activeValidators)) /\
  35 / 100 * (priorityFeesETH d + mevRewardsETH d) <= priorityFeesETH d <=
    45 / 100 * (priorityFeesETH d + mevRewardsETH d) /\
  10 <= avgGasPrice d < 60 /\
  blockCount d = 7200.

(** The sample state on three consecutive days. *)
Definition flatHistory : list HistoricalDataPoint :=
  [ Sample.state;
    {| History.timestamp := JS.msPerDay;
       History.totalStakedETH := 34500000;
       History.activeValidators := 1078125;
       History.entryQueueLength := 2400;
       History.exitQueueLength := 700;
       History.observedAPR := None |};
    {| History.timestamp := (2 * JS.msPerDay)%Z;
       History.totalStakedETH := 34500000;
       History.activeValidators := 1078125;
       History.entryQueueLength := 2300;
       History.exitQueueLength := 600;
       History.observedAPR := None |} ].

(** The statistics of an epoch of 1 078 125 validators holding [balance]. *)
Definition epochOf (number balance : R) : Beacon.EpochStats :=
  {| Beacon.epoch := number;
     Beacon.validatorsCount := 1078125;
     Beacon.averageValidatorBalance := balance / 1078125;
     Beacon.totalValidatorBalance := balance;
     Beacon.eligibleEther := balance;
     Beacon.globalParticipationRate := 995 / 1000;
     Beacon.votedEther := balance |}.

(** A scenario with another [queuePressure]. *)
Definition withQueuePressure (scenario : ScenarioParams) (pressure : R) : ScenarioParams :=
  {| netFlowBias := netFlowBias scenario;
     mevMultiplier := mevMultiplier scenario;
     queuePressure := pressure;
     feeRegimeBias := feeRegimeBias scenario |}.

End Notions.

(** * Properties *)

Import Constants Protocol Execution Forecast Run.

(** ** The sort and the index filter *)

Section SortFacts.

Context {A : Type} (cmp : A -> A -> Z).

Lemma insert_perm (x : A) (l : list A) : Permutation (JS.insert cmp x l) (x :: l).
Proof.
  induction l as [|y t IH]; simpl.
  - apply Permutation_refl.
  - destruct (cmp x y <=? 0)%Z.
    + apply Permutation_refl.
    + eapply perm_trans; [apply perm_skip, IH | apply perm_swap].
Qed.

Lemma sort_perm (l : list A) : Permutation (JS.sort cmp l) l.
Proof.
  induction l as [|x t IH]; simpl.
  - constructor.
  - eapply perm_trans; [apply insert_perm | apply perm_skip, IH].
Qed.

Lemma sort_nonempty (x : A) (t : list A) : JS.sort cmp (x :: t) <> [].
Proof.
  intro E. pose proof (sort_perm (x :: t)) as P. rewrite E in P.
  apply Permutation_nil in P. discriminate.
Qed.

End SortFacts.

Section FilterFacts.

Context {A : Type}.

Lemma filter_from_cons (keep : A -> nat -> bool) (x : A) (t : list A) (i : nat) :
  JS.filter_from keep i (x :: t) =
  if keep x i then x :: JS.filter_from keep (S i) t
  else JS.filter_from keep (S i) t.
Proof. reflexivity. Qed.

Lemma filter_from_ext (keep keep' : A -> nat -> bool) (l : list A) :
  forall i,
    (forall x k, keep x (i + k)%nat = keep' x (i + k)%nat) ->
    JS.filter_from keep i l = JS.filter_from keep' i l.
Proof.
  induction l as [|x t IH]; intros i E; simpl; [reflexivity|].
  pose proof (E x 0%nat) as E0. rewrite Nat.add_0_r in E0. rewrite E0.
  assert (IHt : JS.filter_from keep (S i) t = JS.filter_from keep' (S i) t).
  { apply IH. intros y k. replace (S i + k)%nat with (i + S k)%nat by lia. apply E. }
  now rewrite IHt.
Qed.

Lemma filter_from_app (keep : A -> nat -> bool) (l1 l2 : list A) :
  forall i,
    JS.filter_from keep i (l1 ++ l2) =
    JS.filter_from keep i l1 ++ JS.filter_from keep (i + length l1) l2.
Proof.
  induction l1 as [|x t IH]; intros i; simpl.
  - now rewrite Nat.add_0_r.
  - rewrite IH. replace (S i + length t)%nat with (i + S (length t))%nat by lia.
    now destruct (keep x i).
Qed.

Lemma filter_from_none (q : nat -> bool) (l : list A) :
  forall i,
    (forall k, (k < length l)%nat -> q (i + k)%nat = false) ->
    JS.filter_from (fun _ => q) i l = [].
Proof.
  induction l as [|x t IH]; intros i E; simpl; [reflexivity|].
  pose proof (E 0%nat) as E0. rewrite Nat.add_0_r in E0.
  rewrite E0 by (simpl; lia).
  apply IH. intros k Hk. replace (S i + k)%nat with (i + S k)%nat by lia.
  apply E. simpl. lia.
Qed.

End FilterFacts.

Lemma isSnapshot_monthEnd (m : nat) (p : ForecastPoint) (i : nat) :
  (1 <= m)%nat -> isSnapshot (30 * m) p i = monthEnd i.
Proof.
  intros Hm. unfold isSnapshot, monthEnd.
  destruct (i =? 30 * m - 1)%nat eqn:E.
  - apply Nat.eqb_eq in E. subst i.
    replace (30 * m - 1 + 1)%nat with (0 + m * 30)%nat by lia.
    rewrite Nat.Div0.mod_add. reflexivity.
  - now rewrite orb_false_r.
Qed.

Lemma monthEnd_inside (j k : nat) : (k < 29)%nat -> monthEnd (30 * j + k) = false.
Proof.
  intros Hk. unfold monthEnd.
  replace (30 * j + k + 1)%nat with ((k + 1) + j * 30)%nat by lia.
  rewrite Nat.Div0.mod_add, Nat.mod_small by lia.
  apply Nat.eqb_neq. lia.
Qed.

Lemma monthEnd_last (j : nat) : monthEnd (30 * j + 29) = true.
Proof.
  unfold monthEnd.
  replace (30 * j + 29 + 1)%nat with (0 + (j + 1) * 30)%nat by lia.
  now rewrite Nat.Div0.mod_add.
Qed.

(** Filtering the days [30 j + 1 .. 30 (j + m)], stored from index [30 j],
    keeps the days [30 (j + 1), .., 30 (j + m)]. *)
Lemma monthEnd_days {B : Type} (f : nat -> B) (m : nat) :
  forall j,
    JS.filter_from (fun _ => monthEnd) (30 * j) (map f (seq (30 * j + 1) (30 * m))) =
    map f (map (fun k => (30 * k)%nat) (seq (j + 1) m)).
Proof.
  induction m as [|m IH]; intros j.
  - rewrite Nat.mul_0_r. reflexivity.
  - replace (30 * S m)%nat with (29 + S (30 * m))%nat by lia.
    rewrite seq_app, map_app, filter_from_app.
    rewrite filter_from_none.
    2:{ intros k Hk. rewrite length_map, length_seq in Hk. now apply monthEnd_inside. }
    rewrite length_map, length_seq, <- cons_seq, map_cons, filter_from_cons.
    rewrite monthEnd_last.
    replace (S (30 * j + 29))%nat with (30 * (j + 1))%nat by lia.
    replace (S (30 * j + 1 + 29))%nat with (30 * (j + 1) + 1)%nat by lia.
    rewrite IH.
    replace (30 * j + 1 + 29)%nat with (30 * (j + 1))%nat by lia.
    rewrite <- cons_seq, !map_cons.
    replace (S (j + 1)) with (j + 1 + 1)%nat by lia.
    reflexivity.
Qed.

(** ** The shape of a run *)

Section LoopShape.

Variable latestState : HistoricalDataPoint.
Variable trend : StakingTrend.
Variable scenario : ScenarioParams.
Variable maxDailyChange : R.
Variable currentExecYield : R.
Variable baseRegime : FeeRegime.
Variable st0 : SimState.

Lemma forecastLoop_points (n : nat) :
  forall k,
    forecastLoop latestState trend scenario maxDailyChange currentExecYield baseRegime
      n (S k)
      (stateAfter latestState trend scenario maxDailyChange currentExecYield
         baseRegime st0 k) =
    map (pointOn latestState trend scenario maxDailyChange currentExecYield
           baseRegime st0) (seq (S k) n).
Proof.
  induction n as [|n IH]; intros k; [reflexivity|].
  cbn [forecastLoop seq map].
  unfold pointOn at 1. rewrite Nat.sub_succ, Nat.sub_0_r.
  destruct (forecastDay _ _ _ _ _ _ (S k) _) as [p st'] eqn:E.
  cbn [fst]. f_equal.
  rewrite <- IH. f_equal.
  cbn [stateAfter]. now rewrite E.
Qed.

End LoopShape.

Lemma snapshots_of_days (f : nat -> ForecastPoint) (m : nat) :
  let forecasts := map f (seq 1 (m * 30)) in
  JS.filter (isSnapshot (length forecasts)) forecasts = map f (snapshotDays m).
Proof.
  intros forecasts. subst forecasts.
  rewrite length_map, length_seq, (Nat.mul_comm m 30).
  destruct m as [|m]; [reflexivity|].
  unfold JS.filter.
  rewrite (filter_from_ext _ (fun _ => monthEnd)).
  - apply (monthEnd_days f (S m) 0).
  - intros p k. apply isSnapshot_monthEnd. lia.
Qed.

(** A run on a non-empty history returns the points of the days
    [30, 60, .., 30 * monthsAhead], computed from the most recent record. *)
Lemma generateForecast_run (w : JS.World) (first : HistoricalDataPoint)
  (others : list HistoricalDataPoint) (monthsAhead : nat)
  (scenario : ScenarioParams) (executionHistory : option (list ExecutionDataPoint)) :
  exists latestState,
    latestStateOf (first :: others) = Some latestState /\
    generateForecast w (first :: others) monthsAhead scenario executionHistory =
    (JS.Ok (map (dayPoint (first :: others) latestState scenario
                   (fst (execHistoryOf w latestState executionHistory)))
                (snapshotDays monthsAhead)),
     snd (execHistoryOf w latestState executionHistory)).
Proof.
  unfold generateForecast, latestStateOf.
  destruct (JS.sort byTimestampDesc (first :: others)) as [|latestState rest] eqn:E.
  - now apply sort_nonempty in E.
  - exists latestState. split; [reflexivity|].
    fold (execHistoryOf w latestState executionHistory).
    destruct (execHistoryOf w latestState executionHistory) as [execHistory w'].
    cbn [fst snd]. f_equal. f_equal.
    fold (currentExecYieldOf latestState execHistory).
    fold (baseRegimeOf latestState scenario execHistory).
    fold (initialState latestState).
    rewrite (forecastLoop_points latestState _ scenario _ _ _
               (initialState latestState) (monthsAhead * 30) 0).
    apply snapshots_of_days.
Qed.

(** What a pushed point records, field by field. *)

Section PointFields.

Variable history : list HistoricalDataPoint.
Variable latestState : HistoricalDataPoint.
Variable scenario : ScenarioParams.
Variable execHistory : list ExecutionDataPoint.

Local Abbreviation point_ := (dayPoint history latestState scenario execHistory).

Lemma dayPoint_date (d : nat) :
  date (point_ d) = JS.addDays (History.timestamp latestState) (Z.of_nat d).
Proof. reflexivity. Qed.

Lemma dayPoint_totalAPR (d : nat) :
  totalAPR (drivers (point_ d)) =
  consensusAPR (drivers (point_ d)) + executionAPR (drivers (point_ d)).
Proof. reflexivity. Qed.


Lemma dayPoint_executionPct (d : nat) :
  executionPct (drivers (point_ d)) =
  executionAPR (drivers (point_ d)) / totalAPR (drivers (point_ d)) * 100.
Proof. reflexivity. Qed.

Lemma dayPoint_consensusAPR (d : nat) :
  consensusAPR (drivers (point_ (S d))) =
  getTheoreticalAPR
    (currentStake
       (stateAfter latestState (calculateStakingTrend history) scenario
          (getMaxDailyStakeChange (History.activeValidators latestState))
          (currentExecYieldOf latestState execHistory)
          (baseRegimeOf latestState scenario execHistory)
          (initialState latestState) d)).
Proof. unfold dayPoint, pointOn. rewrite Nat.sub_succ, Nat.sub_0_r. reflexivity. Qed.

(** The execution APR of day [d] is the forecast made from the yield
    and regime fixed before the loop, scaled by the scenario. *)
Lemma dayPoint_executionAPR (d : nat) :
  forall validators,
    executionAPR (drivers (point_ d)) =
    annualizedAPR
      (forecastExecutionYield (currentExecYieldOf latestState execHistory)
         (baseRegimeOf latestState scenario execHistory) d validators) *
    mevMultiplier scenario.
Proof. intros validators. reflexivity. Qed.

End PointFields.

(** ** Empty inputs *)

(** C5. On an empty history [generateForecast] throws the error
    "No historical data provided", whatever the horizon, the scenario and
    the execution history; nothing is computed before the throw: no
    point is returned and no random value is drawn. *)
Theorem generateForecast_empty_history_throws (w : JS.World) (monthsAhead : nat)
  (scenario : ScenarioParams) (executionHistory : option (list ExecutionDataPoint)) :
  generateForecast w [] monthsAhead scenario executionHistory =
  (JS.Throw noHistoryMessage, w).
Proof. reflexivity. Qed.

(** C7. On an empty history [detectRegime] returns, for every validator
    count, the detection made of the calm regime, confidence 0.5, zero
    days in the regime and the calm row of the transition matrix. *)
Theorem detectRegime_empty_history (activeValidators : R) :
  detectRegime [] activeValidators =
  {| currentRegime := calm;
     regimeConfidence := 5 / 10;
     daysInRegime := 0;
     transitionProbability := TRANSITION_MATRIX calm |}.
Proof. reflexivity. Qed.

(** ** Determinism *)

(** Each day of the mock history draws four random values. *)
Lemma mockLoop_drawn (remaining : nat) (now : Z) (activeValidators : R) :
  forall (currentRegime : FeeRegime) (daysInCurrentRegime : nat) (w : JS.World),
    JS.drawn (snd (mockLoop remaining now activeValidators currentRegime
                     daysInCurrentRegime w)) =
    (JS.drawn w + 4 * remaining)%nat.
Proof.
  induction remaining as [|i IH]; intros r k w.
  - cbn [mockLoop snd]. lia.
  - cbn [mockLoop]. unfold JS.random. cbn [JS.drawn JS.clock JS.randoms].
    destruct (Rlt_dec _ _); [|destruct (Rlt_dec _ _)];
      match goal with
      | |- context [mockLoop i now activeValidators ?r' ?k' ?w'] =>
          specialize (IH r' k' w');
          destruct (mockLoop i now activeValidators r' k' w') as [rest w'']
      end;
      cbn [snd JS.drawn] in *; rewrite IH; lia.
Qed.

(** When the execution history is omitted, a run on a non-empty history
    draws the 364 random values of the 91-day mock history. *)
Lemma generateForecast_omitted_draws (w : JS.World) (first : HistoricalDataPoint)
  (others : list HistoricalDataPoint) (monthsAhead : nat) (scenario : ScenarioParams) :
  JS.drawn (snd (generateForecast w (first :: others) monthsAhead scenario None)) =
  (JS.drawn w + 364)%nat.
Proof.
  destruct (generateForecast_run w first others monthsAhead scenario None)
    as (latestState & _ & E).
  rewrite E. cbn [snd execHistoryOf]. unfold generateMockExecutionHistory.
  rewrite mockLoop_drawn. lia.
Qed.

(** C10. When the execution history is supplied, the result of
    [generateForecast] does not depend on the world: two calls with the
    same arguments return the same outcome whatever the clock and the
    random values are, and the call draws no random value. *)
Theorem generateForecast_supplied_deterministic (w1 w2 : JS.World)
  (history : list HistoricalDataPoint) (monthsAhead : nat)
  (scenario : ScenarioParams) (supplied : list ExecutionDataPoint) :
  fst (generateForecast w1 history monthsAhead scenario (Some supplied)) =
  fst (generateForecast w2 history monthsAhead scenario (Some supplied)) /\
  snd (generateForecast w1 history monthsAhead scenario (Some supplied)) = w1.
Proof.
  destruct history as [|first others]; [split; reflexivity|].
  destruct (generateForecast_run w1 first others monthsAhead scenario (Some supplied))
    as (l1 & L1 & E1).
  destruct (generateForecast_run w2 first others monthsAhead scenario (Some supplied))
    as (l2 & L2 & E2).
  rewrite E1, E2. rewrite L1 in L2. injection L2 as <-.
  split; reflexivity.
Qed.

(** ** Monthly snapshots *)

Lemma increasing_on_seq (g : nat -> Z) (n : nat) :
  (forall a b, (a < b)%nat -> (g a < g b)%Z) ->
  forall a, StronglySorted Z.lt (map g (seq a n)).
Proof.
  intros Hg. induction n as [|n IH]; intros a; cbn [seq map]; constructor.
  - apply IH.
  - apply Forall_forall. intros z Hz.
    apply in_map_iff in Hz. destruct Hz as (b & <- & Hb).
    apply in_seq in Hb. apply Hg. lia.
Qed.

Lemma dailyForecasts_days (history : list HistoricalDataPoint)
  (latestState : HistoricalDataPoint) (scenario : ScenarioParams)
  (execHistory : list ExecutionDataPoint) (monthsAhead : nat) :
  dailyForecasts history latestState scenario execHistory monthsAhead =
  map (dayPoint history latestState scenario execHistory) (seq 1 (monthsAhead * 30)).
Proof.
  unfold dailyForecasts.
  apply (forecastLoop_points latestState _ scenario _ _ _ (initialState latestState)
           (monthsAhead * 30) 0).
Qed.

(** C6. On a non-empty history, a run over [monthsAhead] months pushes
    [30 * monthsAhead] daily points and returns exactly [monthsAhead] of
    them: the [k]-th returned point is the daily point of index
    [30 * (k + 1) - 1], that is of day [30 * (k + 1)] (the multiples of
    30, the last of which is the final day); the dates of the returned
    points increase strictly. *)
Theorem generateForecast_monthly_snapshots (w : JS.World)
  (first : HistoricalDataPoint) (others : list HistoricalDataPoint)
  (monthsAhead : nat) (scenario : ScenarioParams)
  (executionHistory : option (list ExecutionDataPoint)) :
  exists latestState points w',
    latestStateOf (first :: others) = Some latestState /\
    generateForecast w (first :: others) monthsAhead scenario executionHistory =
      (JS.Ok points, w') /\
    let forecasts :=
      dailyForecasts (first :: others) latestState scenario
        (fst (execHistoryOf w latestState executionHistory)) monthsAhead in
    length forecasts = (30 * monthsAhead)%nat /\
    length points = monthsAhead /\
    (forall k, (k < monthsAhead)%nat ->
       nth_error points k = nth_error forecasts (30 * (k + 1) - 1)) /\
    StronglySorted Z.lt (map date points).
Proof.
  destruct (generateForecast_run w first others monthsAhead scenario executionHistory)
    as (latestState & L & E).
  exists latestState. eexists. eexists.
  split; [exact L|]. split; [exact E|].
  cbv zeta. rewrite dailyForecasts_days.
  set (point := dayPoint (first :: others) latestState scenario
                  (fst (execHistoryOf w latestState executionHistory))).
  unfold snapshotDays.
  repeat split.
  - rewrite length_map, length_seq. lia.
  - now rewrite !length_map, length_seq.
  - intros k Hk. rewrite !nth_error_map.
    rewrite !nth_error_seq.
    destruct (Nat.ltb_spec k monthsAhead) as [_ | N]; [|lia].
    destruct (Nat.ltb_spec (30 * (k + 1) - 1) (monthsAhead * 30)) as [_ | N]; [|lia].
    cbn [option_map]. do 2 f_equal. lia.
  - rewrite !map_map.
    apply increasing_on_seq. intros a b Hab.
    unfold point. rewrite !dayPoint_date. unfold JS.addDays, JS.msPerDay. lia.
Qed.

(** The instance of the example of the specification: six months give
    six points. *)
Example generateForecast_six_months (w : JS.World) (first : HistoricalDataPoint)
  (others : list HistoricalDataPoint) (scenario : ScenarioParams)
  (executionHistory : option (list ExecutionDataPoint)) :
  exists points w',
    generateForecast w (first :: others) 6 scenario executionHistory =
    (JS.Ok points, w') /\ length points = 6%nat.
Proof.
  destruct (generateForecast_run w first others 6 scenario executionHistory)
    as (latestState & _ & E).
  eexists. eexists. split; [exact E|].
  unfold snapshotDays. rewrite !length_map, length_seq. reflexivity.
Qed.

(** ** Arithmetic of the protocol model *)

Lemma Rinv_nonneg (x : R) : 0 <= x -> 0 <= / x.
Proof.
  intros [H | <-].
  - left. now apply Rinv_0_lt_compat.
  - rewrite Rinv_0. lra.
Qed.

Lemma floor_nonneg (x : R) : 0 <= x -> 0 <= JS.floor x.
Proof.
  intros H. unfold JS.floor. apply IZR_le. now apply Zfloor_lub.
Qed.

Lemma floor_le (x y : R) : x <= y -> JS.floor x <= JS.floor y.
Proof. intros H. unfold JS.floor. apply IZR_le. now apply Zfloor_le. Qed.

Lemma floor_bounds (x : R) : JS.floor x <= x < JS.floor x + 1.
Proof. apply Zfloor_bound. Qed.

Lemma floor_ge_1 (x : R) : 1 <= x -> 1 <= JS.floor x.
Proof. intros H. unfold JS.floor. apply IZR_le. now apply Zfloor_lub. Qed.

Lemma aprNumerator_value : aprNumerator = 2103840000.
Proof.
  unfold aprNumerator, BASE_REWARD_FACTOR, BASE_REWARDS_PER_EPOCH, EPOCHS_PER_YEAR,
    EPOCHS_PER_DAY, SECONDS_PER_EPOCH, SECONDS_PER_SLOT, SLOTS_PER_EPOCH.
  field.
Qed.

Lemma getTheoreticalAPR_positive_stake (s : R) :
  0 < s -> getTheoreticalAPR s = aprNumerator / rootGwei s.
Proof.
  intros Hs. unfold getTheoreticalAPR.
  destruct (Rle_dec s 0) as [H | _]; [lra|].
  unfold getBaseRewardPerEpoch, aprNumerator, rootGwei, Rdiv.
  set (i := / JS.floor (sqrt (s * gwei))).
  unfold gwei. field.
Qed.

Lemma rootGwei_nonneg (s : R) : 0 <= rootGwei s.
Proof. apply floor_nonneg, sqrt_pos. Qed.

Lemma rootGwei_le (s1 s2 : R) : 0 <= s1 -> s1 <= s2 -> rootGwei s1 <= rootGwei s2.
Proof.
  intros H0 H. apply floor_le, sqrt_le_1_alt. unfold gwei. lra.
Qed.

Lemma rootGwei_ge_1 (s : R) : 1 <= s * gwei -> 1 <= rootGwei s.
Proof.
  intros H. apply floor_ge_1. rewrite <- sqrt_1. now apply sqrt_le_1_alt.
Qed.

Lemma getTheoreticalAPR_nonneg (s : R) : 0 <= getTheoreticalAPR s.
Proof.
  destruct (Rle_dec s 0) as [H | H].
  - unfold getTheoreticalAPR. destruct (Rle_dec s 0); [lra | contradiction].
  - rewrite getTheoreticalAPR_positive_stake by lra.
    rewrite aprNumerator_value. unfold Rdiv.
    apply Rmult_le_pos; [lra | apply Rinv_nonneg, rootGwei_nonneg].
Qed.

(** Bounds that pin the floored square root of a concrete value. *)
Lemma floor_sqrt_eq (x : R) (z : Z) :
  (0 <= z)%Z -> IZR z * IZR z <= x < (IZR z + 1) * (IZR z + 1) ->
  JS.floor (sqrt x) = IZR z.
Proof.
  intros Hz [Hl Hu]. unfold JS.floor. f_equal. apply Zfloor_eq.
  assert (0 <= IZR z) by now apply IZR_le.
  split.
  - rewrite <- (sqrt_square (IZR z)) by assumption. now apply sqrt_le_1_alt.
  - rewrite <- (sqrt_square (IZR z + 1)) by lra.
    apply sqrt_lt_1_alt. split; [nra | assumption].
Qed.

(** ** Arithmetic of the execution model *)

Lemma Rpower_half_pos (x : R) : 0 < Rpower (5 / 10) x.
Proof. unfold Rpower. apply exp_pos. Qed.

Lemma Rpower_half_le_1 (x : R) : 0 <= x -> Rpower (5 / 10) x <= 1.
Proof.
  intros Hx. unfold Rpower. rewrite <- exp_0.
  assert (L : ln (5 / 10) < 0).
  { rewrite <- ln_1. apply ln_increasing; lra. }
  destruct (Req_dec x 0) as [-> | N].
  - rewrite Rmult_0_l. lra.
  - left. apply exp_increasing. nra.
Qed.

Lemma target_pos (r : FeeRegime) : 0 < target (MEAN_REVERSION r).
Proof. destruct r; simpl; lra. Qed.

Lemma target_ge (r : FeeRegime) : 5 / 10000 <= target (MEAN_REVERSION r).
Proof. destruct r; simpl; lra. Qed.

Lemma target_le (r : FeeRegime) : target (MEAN_REVERSION r) <= 4 / 1000.
Proof. destruct r; simpl; lra. Qed.

Lemma halfLife_pos (r : FeeRegime) : 0 < halfLife (MEAN_REVERSION r).
Proof. destruct r; simpl; lra. Qed.

(** The two named parts of the execution forecast add up to it. *)
Lemma forecast_components_sum (y : R) (r : FeeRegime) (d : nat) (v : R) :
  let f := forecastExecutionYield y r d v in
  priorityFees (Execution.components f) + mevRewards (Execution.components f) =
  annualizedAPR f.
Proof. intros f. subst f. unfold forecastExecutionYield. cbn [priorityFees mevRewards
  Execution.components annualizedAPR]. field. Qed.

Lemma forecast_annualizedAPR_pos (y : R) (r : FeeRegime) (d : nat) (v : R) :
  0 <= y -> 0 < annualizedAPR (forecastExecutionYield y r d v).
Proof.
  intros Hy. unfold forecastExecutionYield. cbn [annualizedAPR].
  set (decay := Rpower (5 / 10) (INR d / halfLife (MEAN_REVERSION r))).
  assert (D0 : 0 < decay) by apply Rpower_half_pos.
  assert (D1 : decay <= 1).
  { apply Rpower_half_le_1. unfold Rdiv. apply Rmult_le_pos; [apply pos_INR|].
    left. apply Rinv_0_lt_compat, halfLife_pos. }
  pose proof (target_pos r) as T.
  set (e := mostLikelyRegime _).
  pose proof (target_pos e) as T'.
  assert (0 <= y * decay) by nra.
  assert (0 <= target (MEAN_REVERSION r) * (1 - decay)) by nra.
  lra.
Qed.

(** ** The reward curve *)



Lemma getTheoreticalAPR_antitone (s1 s2 : R) :
  1 <= s1 * gwei -> s1 <= s2 -> getTheoreticalAPR s2 <= getTheoreticalAPR s1.
Proof.
  intros H1 H12.
  assert (P1 : 0 < s1) by (unfold gwei in H1; lra).
  rewrite !getTheoreticalAPR_positive_stake by lra.
  pose proof (rootGwei_ge_1 s1 H1) as R1.
  pose proof (rootGwei_le s1 s2 (Rlt_le _ _ P1) H12) as R12.
  rewrite aprNumerator_value. unfold Rdiv.
  assert (/ rootGwei s2 <= / rootGwei s1) by (apply Rinv_le_contravar; lra).
  nra.
Qed.




(** ** The equilibrium stake *)



Lemma rootGwei_34500000 : rootGwei 34500000 = 185741756.
Proof.
  unfold rootGwei. apply floor_sqrt_eq; [lia|]. unfold gwei. lra.
Qed.




(** ** Driver attribution *)

Lemma sum_nonneg (l : list R) : Forall (fun x => 0 <= x) l -> 0 <= Stats.sum l.
Proof.
  induction 1 as [|x t Hx _ IH]; simpl; lra.
Qed.

Lemma mean_nonneg (l : list R) : Forall (fun x => 0 <= x) l -> 0 <= Stats.mean l.
Proof.
  intros H. unfold Stats.mean, Rdiv.
  apply Rmult_le_pos; [now apply sum_nonneg | apply Rinv_nonneg, pos_INR].
Qed.

Lemma slice0_In {A : Type} (n : nat) (l : list A) (x : A) :
  In x (JS.slice0 n l) -> In x l.
Proof.
  unfold JS.slice0. intros H. rewrite <- (firstn_skipn n l).
  apply in_or_app. now left.
Qed.

(** Non-negative rewards and a positive validator count give a
    non-negative current execution yield. *)
Lemma currentExecYieldOf_nonneg (latestState : HistoricalDataPoint)
  (execHistory : list ExecutionDataPoint) :
  0 < History.activeValidators latestState ->
  Forall (fun d => 0 <= priorityFeesETH d /\ 0 <= mevRewardsETH d) execHistory ->
  0 <= currentExecYieldOf latestState execHistory.
Proof.
  intros V F. unfold currentExecYieldOf.
  destruct (JS.slice0 7 execHistory) as [|d0 rest] eqn:E; [lra|].
  apply mean_nonneg. rewrite <- E. apply Forall_map.
  apply Forall_forall. intros d Hd.
  apply slice0_In in Hd. rewrite Forall_forall in F.
  destruct (F d Hd) as [Hp Hm].
  apply Rmult_le_pos; [lra | left; now apply Rinv_0_lt_compat].
Qed.

Section Attribution.

Variable history : list HistoricalDataPoint.
Variable latestState : HistoricalDataPoint.
Variable scenario : ScenarioParams.
Variable execHistory : list ExecutionDataPoint.

Local Abbreviation point_ := (dayPoint history latestState scenario execHistory).

Lemma dayPoint_executionAPR_pos (d : nat) :
  0 <= currentExecYieldOf latestState execHistory ->
  0 < mevMultiplier scenario ->
  0 < executionAPR (drivers (point_ d)).
Proof.
  intros Hy Hm. rewrite (dayPoint_executionAPR _ _ _ _ d 0).
  apply Rmult_lt_0_compat; [now apply forecast_annualizedAPR_pos | assumption].
Qed.

Lemma dayPoint_consensusAPR_nonneg (d : nat) :
  0 <= consensusAPR (drivers (point_ d)).
Proof. apply getTheoreticalAPR_nonneg. Qed.

Lemma dayPoint_totalAPR_pos (d : nat) :
  0 <= currentExecYieldOf latestState execHistory ->
  0 < mevMultiplier scenario ->
  0 < totalAPR (drivers (point_ d)).
Proof.
  intros Hy Hm. rewrite dayPoint_totalAPR.
  pose proof (dayPoint_executionAPR_pos d Hy Hm).
  pose proof (dayPoint_consensusAPR_nonneg d). lra.
Qed.


(** The two execution percentages are computed from the forecast before
    the scenario multiplier is applied, and divided by the forecast after
    it: their sum is the execution percentage divided by the multiplier. *)
Lemma dayPoint_breakdown (d : nat) :
  totalAPR (drivers (point_ d)) <> 0 ->
  executionAPR (drivers (point_ d)) <> 0 ->
  (priorityFeesPct (drivers (point_ d)) + mevPct (drivers (point_ d))) *
    mevMultiplier scenario =
  executionPct (drivers (point_ d)).
Proof.
  intros T A.
  rewrite dayPoint_executionPct.
  set (f := forecastExecutionYield (currentExecYieldOf latestState execHistory)
              (baseRegimeOf latestState scenario execHistory) d 0).
  assert (P : priorityFeesPct (drivers (dayPoint history latestState scenario execHistory d)) =
              priorityFees (Execution.components f) /
              executionAPR (drivers (dayPoint history latestState scenario execHistory d)) *
              (executionAPR (drivers (dayPoint history latestState scenario execHistory d)) /
               totalAPR (drivers (dayPoint history latestState scenario execHistory d))) * 100)
    by reflexivity.
  assert (M : mevPct (drivers (dayPoint history latestState scenario execHistory d)) =
              mevRewards (Execution.components f) /
              executionAPR (drivers (dayPoint history latestState scenario execHistory d)) *
              (executionAPR (drivers (dayPoint history latestState scenario execHistory d)) /
               totalAPR (drivers (dayPoint history latestState scenario execHistory d))) * 100)
    by reflexivity.
  rewrite P, M.
  pose proof (forecast_components_sum (currentExecYieldOf latestState execHistory)
                (baseRegimeOf latestState scenario execHistory) d 0) as S.
  cbv zeta in S. fold f in S.
  pose proof (dayPoint_executionAPR history latestState scenario execHistory d 0) as X.
  fold f in X.
  set (a := executionAPR _) in *. set (t := totalAPR _) in *.
  set (pf := priorityFees _) in *. set (mv := mevRewards _) in *.
  replace (pf / a * (a / t) * 100 + mv / a * (a / t) * 100)
    with ((pf + mv) / t * 100) by (field; split; assumption).
  rewrite S, X. field. exact T.
Qed.

End Attribution.

(** A single-record history is its own most recent record. *)
Lemma generateForecast_single (w : JS.World) (only : HistoricalDataPoint)
  (monthsAhead : nat) (scenario : ScenarioParams)
  (supplied : list ExecutionDataPoint) :
  generateForecast w [only] monthsAhead scenario (Some supplied) =
  (JS.Ok (map (dayPoint [only] only scenario supplied) (snapshotDays monthsAhead)), w).
Proof.
  destruct (generateForecast_run w only [] monthsAhead scenario (Some supplied))
    as (latestState & L & E).
  injection L as <-. exact E.
Qed.

Lemma sample_yield_nonneg : 0 <= currentExecYieldOf Sample.state Sample.execution.
Proof.
  apply currentExecYieldOf_nonneg.
  - simpl. lra.
  - repeat constructor; simpl; lra.
Qed.



(** ** The order of the execution history *)

Lemma sort_newestFirst :
  JS.sort Execution.byTimestampDesc Sample.newestFirst = Sample.newestFirst.
Proof. reflexivity. Qed.

Lemma sort_oldestFirst :
  JS.sort Execution.byTimestampDesc Sample.oldestFirst = Sample.newestFirst.
Proof. reflexivity. Qed.

(** [detectRegime] reads its history through the sorted copy only. *)
Lemma detectRegime_by_sort (h1 h2 : list ExecutionDataPoint) (v : R) :
  h1 <> [] -> h2 <> [] ->
  JS.sort Execution.byTimestampDesc h1 = JS.sort Execution.byTimestampDesc h2 ->
  detectRegime h1 v = detectRegime h2 v.
Proof.
  intros N1 N2 E.
  destruct h1 as [|a1 t1]; [contradiction|].
  destruct h2 as [|a2 t2]; [contradiction|].
  unfold detectRegime. now rewrite E.
Qed.

Lemma yield_newestFirst :
  currentExecYieldOf Sample.state Sample.newestFirst = 2000 / 1078125.
Proof.
  unfold currentExecYieldOf, Sample.newestFirst, Sample.rewards, JS.slice0, Stats.mean.
  cbn [firstn map Stats.sum fold_right length priorityFeesETH mevRewardsETH
       History.activeValidators Sample.state].
  replace (INR 7) with 7 by (simpl; lra). field.
Qed.

Lemma yield_oldestFirst :
  currentExecYieldOf Sample.state Sample.oldestFirst = 16000 / 7 / 1078125.
Proof.
  unfold currentExecYieldOf, Sample.oldestFirst, Sample.newestFirst, Sample.rewards,
    JS.slice0, Stats.mean.
  cbn [rev app firstn map Stats.sum fold_right length priorityFeesETH mevRewardsETH
       History.activeValidators Sample.state].
  replace (INR 7) with 7 by (simpl; lra). field.
Qed.

(** The forecast APR determines the current yield it was made from. *)
Lemma forecast_annualizedAPR_inj (y1 y2 : R) (r : FeeRegime) (d : nat) (v1 v2 : R) :
  annualizedAPR (forecastExecutionYield y1 r d v1) =
  annualizedAPR (forecastExecutionYield y2 r d v2) ->
  y1 = y2.
Proof.
  unfold forecastExecutionYield. cbn [annualizedAPR].
  set (decay := Rpower (5 / 10) (INR d / halfLife (MEAN_REVERSION r))).
  pose proof (Rpower_half_pos (INR d / halfLife (MEAN_REVERSION r))) as D.
  fold decay in D.
  set (t := target (MEAN_REVERSION r)).
  set (t' := target (MEAN_REVERSION (mostLikelyRegime _))).
  intros H.
  assert (E : y1 * decay = y2 * decay) by lra.
  apply Rmult_eq_reg_r in E; [exact E | lra].
Qed.

(** C2, evaluated where it fails. The same eight execution records,
    listed newest first and oldest first, give different forecasts for
    the sample state under the default scenario: the current execution
    yield is the mean of the first seven records of the array as the
    caller ordered it, not of the seven most recent ones. *)
Theorem execution_history_order_changes_forecast (w : JS.World) :
  Permutation Sample.newestFirst Sample.oldestFirst /\
  currentRegime (detectRegime Sample.newestFirst (History.activeValidators Sample.state)) =
  currentRegime (detectRegime Sample.oldestFirst (History.activeValidators Sample.state)) /\
  fst (generateForecast w Sample.history 1 DEFAULT_SCENARIO (Some Sample.newestFirst)) <>
  fst (generateForecast w Sample.history 1 DEFAULT_SCENARIO (Some Sample.oldestFirst)).
Proof.
  assert (D : detectRegime Sample.newestFirst (History.activeValidators Sample.state) =
              detectRegime Sample.oldestFirst (History.activeValidators Sample.state)).
  { apply detectRegime_by_sort; try discriminate.
    now rewrite sort_newestFirst, sort_oldestFirst. }
  split; [apply Permutation_rev|]. split; [now rewrite D|].
  unfold Sample.history. rewrite !generateForecast_single. cbn [fst snapshotDays seq map].
  intros E.
  apply (f_equal (fun r => match r with
                           | JS.Ok (p :: _) => executionAPR (drivers p)
                           | _ => 0
                           end)) in E.
  cbv beta iota in E.
  rewrite (dayPoint_executionAPR _ _ _ _ _ 0) in E.
  rewrite (dayPoint_executionAPR _ _ _ Sample.oldestFirst _ 0) in E.
  unfold baseRegimeOf in E. cbn [feeRegimeBias DEFAULT_SCENARIO mevMultiplier] in E.
  rewrite <- D in E. rewrite !Rmult_1_r in E.
  apply forecast_annualizedAPR_inj in E.
  rewrite yield_newestFirst, yield_oldestFirst in E. lra.
Qed.

(** ** The stake trajectory *)

Lemma getChurnLimit_ge_4 (v : R) : 4 <= getChurnLimit v.
Proof. unfold getChurnLimit, MIN_PER_EPOCH_CHURN_LIMIT. apply Rmax_l. Qed.

Lemma EPOCHS_PER_DAY_value : EPOCHS_PER_DAY = 225.
Proof.
  unfold EPOCHS_PER_DAY, SECONDS_PER_EPOCH, SECONDS_PER_SLOT, SLOTS_PER_EPOCH. field.
Qed.

Lemma getMaxDailyStakeChange_pos (v : R) : 0 < getMaxDailyStakeChange v.
Proof.
  unfold getMaxDailyStakeChange. rewrite EPOCHS_PER_DAY_value.
  pose proof (getChurnLimit_ge_4 v). lra.
Qed.

Section Trajectory.

Variable latestState : HistoricalDataPoint.
Variable trend : StakingTrend.
Variable scenario : ScenarioParams.
Variable maxDailyChange : R.
Variable currentExecYield : R.
Variable baseRegime : FeeRegime.
Variable st0 : SimState.

Local Abbreviation stake_ d :=
  (currentStake (stateAfter latestState trend scenario maxDailyChange currentExecYield
                   baseRegime st0 d)).
Local Abbreviation growth_ :=
  (growthOn trend scenario maxDailyChange currentExecYield baseRegime).
Local Abbreviation total_ :=
  (totalAPROn scenario currentExecYield baseRegime).
Local Abbreviation base_ := (baseGrowth trend scenario maxDailyChange).

(** The stake recurrence run by the loop. *)
Lemma stateAfter_stake (d : nat) :
  stake_ (S d) = Rmax 0 (stake_ d + growth_ (S d) (stake_ d)).
Proof. reflexivity. Qed.


Hypothesis yield_nonneg : 0 <= currentExecYield.
Hypothesis multiplier_pos : 0 < mevMultiplier scenario.
Hypothesis maxDailyChange_pos : 0 < maxDailyChange.

Lemma totalAPROn_pos (d : nat) (s : R) : 0 < total_ d s.
Proof.
  unfold totalAPROn.
  pose proof (getTheoreticalAPR_nonneg s).
  pose proof (forecast_annualizedAPR_pos currentExecYield baseRegime d 0 yield_nonneg).
  assert (0 < annualizedAPR (forecastExecutionYield currentExecYield baseRegime d 0) *
              mevMultiplier scenario) by now apply Rmult_lt_0_compat.
  lra.
Qed.

(** The feedback keeps the sign of the base growth rate. *)
Lemma growthOn_nonneg (d : nat) (s : R) : 0 <= base_ -> 0 <= growth_ d s.
Proof.
  intros B. unfold growthOn, applyAPRFeedback, defaultTargetAPR. cbv zeta.
  pose proof (totalAPROn_pos d s) as T.
  set (g0 := base_ * (1 + (total_ d s - 4) * (1 / 10))).
  assert (G : 0 <= g0) by (unfold g0; nra).
  destruct (Rgt_dec g0 0).
  - apply Rmin_glb; lra.
  - apply Rle_trans with g0; [assumption | apply Rmax_l].
Qed.



(** With a non-negative base rate the stake never falls below the
    (non-negative part of the) initial stake. *)
Lemma stake_above (d : nat) :
  0 <= base_ -> Rmax 0 (currentStake st0) <= stake_ (S d).
Proof.
  intros B. induction d as [|d IH].
  - rewrite stateAfter_stake. cbn [stateAfter].
    pose proof (growthOn_nonneg 1 (currentStake st0) B).
    apply Rle_max_compat_l. lra.
  - rewrite stateAfter_stake.
    pose proof (growthOn_nonneg (S (S d)) (stake_ (S d)) B).
    apply Rle_trans with (stake_ (S d)); [exact IH|].
    apply Rle_trans with (stake_ (S d) + growth_ (S (S d)) (stake_ (S d))); [lra|].
    apply Rmax_r.
Qed.


End Trajectory.

(** ** Scenario comparison *)

Lemma latestStateOf_In (history : list HistoricalDataPoint)
  (latestState : HistoricalDataPoint) :
  latestStateOf history = Some latestState -> In latestState history.
Proof.
  unfold latestStateOf. intros H.
  destruct (JS.sort byTimestampDesc history) as [|l rest] eqn:E; [discriminate|].
  injection H as ->.
  apply (Permutation_in _ (sort_perm byTimestampDesc history)).
  rewrite E. now left.
Qed.






Lemma sample_trend : dailyGrowthRate (calculateStakingTrend Sample.history) = 0.
Proof. reflexivity. Qed.


(** ** A growing history on which the scenarios cross *)


















(** ** The execution breakdown under a scenario multiplier *)

Lemma yield_sample : currentExecYieldOf Sample.state Sample.execution = 2000 / 1078125.
Proof.
  unfold currentExecYieldOf, Sample.execution, JS.slice0, Stats.mean.
  cbn [firstn map Stats.sum fold_right length priorityFeesETH mevRewardsETH
       History.activeValidators Sample.state INR].
  field.
Qed.

(** Under the bullish preset the execution APR of the sample run is at
    least 2.14 on every day. *)
Lemma bullish_sample_executionAPR (d : nat) :
  214 / 100 <=
  executionAPR
    (drivers (dayPoint Sample.history Sample.state BULLISH_SCENARIO Sample.execution d)).
Proof.
  rewrite (dayPoint_executionAPR _ _ _ _ d 0), yield_sample.
  change (baseRegimeOf Sample.state BULLISH_SCENARIO Sample.execution) with elevated.
  cbn [mevMultiplier BULLISH_SCENARIO].
  unfold forecastExecutionYield. cbn [annualizedAPR].
  cbn [MEAN_REVERSION halfLife target].
  set (decay := Rpower (5 / 10) (INR d / 5)).
  pose proof (Rpower_half_pos (INR d / 5)) as D0. fold decay in D0.
  assert (D1 : decay <= 1).
  { apply Rpower_half_le_1. pose proof (pos_INR d). lra. }
  set (e := mostLikelyRegime _).
  pose proof (target_ge e) as T.
  nra.
Qed.

(** Its consensus APR is at most 11.33, the stake never falling below
    the initial 34.5 million ETH. *)
Lemma bullish_sample_consensusAPR (d : nat) :
  consensusAPR
    (drivers (dayPoint Sample.history Sample.state BULLISH_SCENARIO Sample.execution (S d)))
  <= 1133 / 100.
Proof.
  rewrite dayPoint_consensusAPR.
  set (s := currentStake _).
  assert (S0 : 34500000 <= s).
  { subst s. destruct d as [|d]; [simpl; lra|].
    eapply Rle_trans; [|apply stake_above].
    - cbn [initialState currentStake History.totalStakedETH Sample.state].
      rewrite Rmax_right; lra.
    - exact sample_yield_nonneg.
    - simpl. lra.
    - apply getMaxDailyStakeChange_pos.
    - unfold baseGrowth. rewrite sample_trend. cbn [netFlowBias BULLISH_SCENARIO].
      pose proof (getMaxDailyStakeChange_pos (History.activeValidators Sample.state)).
      lra. }
  eapply Rle_trans.
  - apply (getTheoreticalAPR_antitone 34500000 s); [unfold gwei; lra | assumption].
  - rewrite getTheoreticalAPR_positive_stake, aprNumerator_value, rootGwei_34500000 by lra.
    lra.
Qed.

(** C1, evaluated where it fails. Under the bullish preset the point
    returned for the sample state has a positive total APR and a positive
    scaled execution APR, and its two execution percentages add up to
    10/13 of the execution percentage, more than 3 percentage points
    below it: the components are not scaled by [mevMultiplier]. *)
Theorem bullish_breakdown_falls_short :
  exists p,
    generateForecast Sample.world Sample.history 1 BULLISH_SCENARIO
      (Some Sample.execution) = (JS.Ok [p], Sample.world) /\
    totalAPR (drivers p) <> 0 /\
    executionAPR (drivers p) <> 0 /\
    priorityFeesPct (drivers p) + mevPct (drivers p) =
      executionPct (drivers p) * (10 / 13) /\
    executionPct (drivers p) - (priorityFeesPct (drivers p) + mevPct (drivers p)) > 3.
Proof.
  exists (dayPoint Sample.history Sample.state BULLISH_SCENARIO Sample.execution 30).
  assert (M : 0 < mevMultiplier BULLISH_SCENARIO) by (simpl; lra).
  pose proof (dayPoint_totalAPR_pos Sample.history Sample.state BULLISH_SCENARIO
                Sample.execution 30 sample_yield_nonneg M) as T.
  pose proof (dayPoint_executionAPR_pos Sample.history Sample.state BULLISH_SCENARIO
                Sample.execution 30 sample_yield_nonneg M) as A.
  pose proof (dayPoint_breakdown Sample.history Sample.state BULLISH_SCENARIO
                Sample.execution 30 (Rgt_not_eq _ _ T) (Rgt_not_eq _ _ A)) as B.
  pose proof (bullish_sample_executionAPR 30) as A1.
  pose proof (bullish_sample_consensusAPR 29) as C1.
  pose proof (dayPoint_consensusAPR_nonneg Sample.history Sample.state BULLISH_SCENARIO
                Sample.execution 30) as C0.
  assert (X : 15 < executionPct
                     (drivers (dayPoint Sample.history Sample.state BULLISH_SCENARIO
                                 Sample.execution 30))).
  { rewrite dayPoint_executionPct.
    rewrite dayPoint_totalAPR in *.
    set (a := executionAPR _) in *. set (c := consensusAPR _) in *.
    apply Rmult_lt_reg_r with (c + a); [lra|].
    replace (a / (c + a) * 100 * (c + a)) with (a * 100) by (field; lra).
    lra. }
  change (mevMultiplier BULLISH_SCENARIO) with (13 / 10) in B.
  split; [apply (generateForecast_single Sample.world Sample.state 1)|].
  repeat split; try lra.
Qed.

(** * Further properties *)

Import Notions.

(** ** Churn limit and queue waiting times *)

Lemma getChurnLimit_pos (v : R) : 0 < getChurnLimit v.
Proof. pose proof (getChurnLimit_ge_4 v). lra. Qed.

(** X1. The churn limit is never below 4 and never decreases when the
    validator count grows. *)
Theorem getChurnLimit_monotone (v1 v2 : R) :
  v1 <= v2 -> 4 <= getChurnLimit v1 <= getChurnLimit v2.
Proof.
  intros H. split; [apply getChurnLimit_ge_4|].
  unfold getChurnLimit. apply Rle_max_compat_l, floor_le.
  unfold CHURN_LIMIT_QUOTIENT. lra.
Qed.

Lemma getChurnLimit_monotone_witness :
  4 <= getChurnLimit 1000 <= getChurnLimit 1078125.
Proof. apply (getChurnLimit_monotone 1000 1078125). lra. Defined.

(** X2. Below 327 680 validators the churn limit is the minimum, 4; from
    262 144 validators on it is the floored quotient of the validator count
    by 65 536. *)
Theorem getChurnLimit_threshold (v1 v2 : R) :
  v1 < 327680 -> 262144 <= v2 ->
  getChurnLimit v1 = 4 /\ getChurnLimit v2 = JS.floor (v2 / 65536).
Proof.
  unfold getChurnLimit, MIN_PER_EPOCH_CHURN_LIMIT, CHURN_LIMIT_QUOTIENT.
  intros H1 H2. split.
  - pose proof (floor_bounds (v1 / 65536)) as [Bl Bu].
    apply Rmax_left.
    assert (L : (Zfloor (v1 / 65536) < 5)%Z).
    { apply lt_IZR. unfold JS.floor in Bl. lra. }
    unfold JS.floor. apply IZR_le. lia.
  - apply Rmax_right.
    change 4 with (IZR 4). unfold JS.floor. apply IZR_le, Zfloor_lub. lra.
Qed.

Lemma getChurnLimit_threshold_witness :
  getChurnLimit 1000 = 4 /\ getChurnLimit 1078125 = JS.floor (1078125 / 65536).
Proof. apply (getChurnLimit_threshold 1000 1078125); lra. Defined.

Lemma ceil_bounds (x : R) : Metrics.ceil x - 1 < x <= Metrics.ceil x.
Proof. apply Zceil_bound. Qed.

Lemma wait_bounds (queueLength activeValidatorCount : R) :
  let wait := Metrics.getActivationQueueWaitTime queueLength activeValidatorCount in
  queueLength <= wait * getChurnLimit activeValidatorCount /\
  (wait - 1) * getChurnLimit activeValidatorCount < queueLength /\
  Metrics.getExitQueueWaitTime queueLength activeValidatorCount = wait.
Proof.
  intros wait. subst wait.
  unfold Metrics.getActivationQueueWaitTime, Metrics.getExitQueueWaitTime. cbv zeta.
  pose proof (getChurnLimit_pos activeValidatorCount) as C.
  pose proof (ceil_bounds (queueLength / getChurnLimit activeValidatorCount)) as [Bl Bu].
  set (c := getChurnLimit activeValidatorCount) in *.
  set (w := Metrics.ceil (queueLength / c)) in *.
  assert (E : queueLength = queueLength / c * c) by (field; lra).
  repeat split.
  - apply Rle_trans with (queueLength / c * c); [lra|].
    apply Rmult_le_compat_r; lra.
  - apply Rlt_le_trans with (queueLength / c * c); [|lra].
    apply Rmult_lt_compat_r; lra.
Qed.

(** X3. The activation waiting time is the least whole number of epochs
    in which the churn limit clears the queue: that many epochs suffice,
    one fewer do not; the exit queue is computed the same way. *)
Theorem queue_wait_is_least (queueLength activeValidatorCount : R) :
  let wait := Metrics.getActivationQueueWaitTime queueLength activeValidatorCount in
  queueLength <= wait * getChurnLimit activeValidatorCount /\
  (wait - 1) * getChurnLimit activeValidatorCount < queueLength /\
  Metrics.getExitQueueWaitTime queueLength activeValidatorCount = wait.
Proof. apply wait_bounds. Qed.

(** Converting a number of days into epochs and back gives the
    number of days: [epochsToDays] inverts the multiplication by
    [EPOCHS_PER_DAY]. *)
Theorem epochsToDays_of_days (days : R) :
  Metrics.epochsToDays (days * EPOCHS_PER_DAY) = days.
Proof.
  unfold Metrics.epochsToDays, EPOCHS_PER_DAY, SECONDS_PER_EPOCH, SECONDS_PER_SLOT,
    SLOTS_PER_EPOCH.
  field.
Qed.

(** X4. In the metrics derived from a protocol state, the queue waiting
    days are enough to clear each queue at the derived number of validators
    per day, and 32 ETH for each of these validators is the maximum daily
    stake change used by the forecast. *)
Theorem deriveMetrics_queues_clear (state : Metrics.ProtocolState) :
  let m := Metrics.deriveMetrics state in
  Metrics.entryQueueLength state <= Metrics.entryQueueDays m * Metrics.validatorsPerDay m /\
  Metrics.exitQueueLength state <= Metrics.exitQueueDays m * Metrics.validatorsPerDay m /\
  Metrics.validatorsPerDay m * 32 = getMaxDailyStakeChange (Metrics.activeValidators state).
Proof.
  intros m. subst m. unfold Metrics.deriveMetrics.
  cbn [Metrics.entryQueueDays Metrics.exitQueueDays Metrics.validatorsPerDay].
  pose proof (wait_bounds (Metrics.entryQueueLength state)
                (Metrics.activeValidators state)) as (E1 & _ & _).
  pose proof (wait_bounds (Metrics.exitQueueLength state)
                (Metrics.activeValidators state)) as (X1 & _ & X3).
  cbv zeta in *. rewrite X3.
  unfold Metrics.epochsToDays, getMaxDailyStakeChange, EPOCHS_PER_DAY, SECONDS_PER_EPOCH,
    SECONDS_PER_SLOT, SLOTS_PER_EPOCH.
  set (c := getChurnLimit (Metrics.activeValidators state)) in *.
  repeat split.
  - replace (_ * (12 * 32) / (24 * 60 * 60) * (c * (24 * 60 * 60 / (12 * 32))))
      with (Metrics.getActivationQueueWaitTime (Metrics.entryQueueLength state)
              (Metrics.activeValidators state) * c) by field.
    exact E1.
  - replace (_ * (12 * 32) / (24 * 60 * 60) * (c * (24 * 60 * 60 / (12 * 32))))
      with (Metrics.getActivationQueueWaitTime (Metrics.exitQueueLength state)
              (Metrics.activeValidators state) * c) by field.
    exact X1.
Qed.

(** ** The equilibrium stake and the realistic APR *)

Lemma aprNumerator_pos : 0 < aprNumerator.
Proof. rewrite aprNumerator_value. lra. Qed.

Lemma equilibrium_positive_target (a : R) :
  0 < a ->
  getEquilibriumStakeForAPR a = aprNumerator / a * (aprNumerator / a) / gwei.
Proof.
  intros H. unfold getEquilibriumStakeForAPR.
  destruct (Rle_dec a 0); [lra | reflexivity].
Qed.

(** X5. On positive targets the equilibrium stake is positive and
    strictly decreasing in the target APR. *)
Theorem getEquilibriumStakeForAPR_decreasing (a1 a2 : R) :
  0 < a1 -> a1 < a2 ->
  0 < getEquilibriumStakeForAPR a2 < getEquilibriumStakeForAPR a1.
Proof.
  intros H1 H12.
  rewrite !equilibrium_positive_target by lra.
  pose proof aprNumerator_pos as N.
  assert (Q2 : 0 < aprNumerator / a2) by (apply Rdiv_lt_0_compat; lra).
  assert (Q12 : aprNumerator / a2 < aprNumerator / a1).
  { unfold Rdiv. apply Rmult_lt_compat_l; [assumption|].
    apply Rinv_lt_contravar; [nra | assumption]. }
  unfold gwei. split.
  - apply Rdiv_lt_0_compat; [nra | lra].
  - apply Rmult_lt_compat_r; [lra | nra].
Qed.

Lemma getEquilibriumStakeForAPR_decreasing_witness :
  0 < getEquilibriumStakeForAPR 5 < getEquilibriumStakeForAPR 4.
Proof. apply (getEquilibriumStakeForAPR_decreasing 4 5); lra. Defined.

(** X6. The theoretical APR at the equilibrium stake of a target between
    0 and the numerator of the reward formula is at least the target, and
    it is the target itself when the numerator is a whole multiple of it. *)
Theorem theoretical_of_equilibrium (a : R) :
  0 < a <= aprNumerator ->
  a <= getTheoreticalAPR (getEquilibriumStakeForAPR a) /\
  (forall z : Z, aprNumerator / a = IZR z ->
     getTheoreticalAPR (getEquilibriumStakeForAPR a) = a).
Proof.
  intros [H0 H1].
  pose proof aprNumerator_pos as N.
  assert (Q : 1 <= aprNumerator / a).
  { apply Rmult_le_reg_r with a; [assumption|].
    replace (aprNumerator / a * a) with aprNumerator by (field; lra). lra. }
  assert (G : 0 < gwei) by (unfold gwei; lra).
  assert (E : getEquilibriumStakeForAPR a * gwei = aprNumerator / a * (aprNumerator / a)).
  { rewrite equilibrium_positive_target by assumption. field. split; lra. }
  assert (P : 0 < getEquilibriumStakeForAPR a).
  { apply Rmult_lt_reg_r with gwei; [assumption|]. rewrite E. nra. }
  rewrite getTheoreticalAPR_positive_stake by assumption.
  unfold rootGwei. rewrite E, sqrt_square by lra.
  pose proof (floor_bounds (aprNumerator / a)) as [Bl _].
  pose proof (floor_ge_1 (aprNumerator / a) Q) as F1.
  split.
  - apply Rmult_le_reg_r with (JS.floor (aprNumerator / a)); [lra|].
    replace (aprNumerator / JS.floor (aprNumerator / a) * JS.floor (aprNumerator / a))
      with aprNumerator by (field; lra).
    apply Rle_trans with (a * (aprNumerator / a)).
    + apply Rmult_le_compat_l; lra.
    + right. field. lra.
  - intros z Hz. rewrite Hz. unfold JS.floor.
    rewrite (Zfloor_eq z (IZR z)) by lra.
    rewrite <- Hz. field. split; lra.
Qed.

Lemma theoretical_of_equilibrium_witness :
  4 <= getTheoreticalAPR (getEquilibriumStakeForAPR 4) /\
  (forall z : Z, aprNumerator / 4 = IZR z ->
     getTheoreticalAPR (getEquilibriumStakeForAPR 4) = 4).
Proof.
  apply (theoretical_of_equilibrium 4). rewrite aprNumerator_value. lra.
Defined.

Lemma realistic_mev_part (s p adoption reward : R) :
  Metrics.getRealisticAPR s p adoption reward =
  getTheoreticalAPR s * p +
  EPOCHS_PER_YEAR * 100 * reward * adoption / JS.floor (s / 32).
Proof.
  unfold Metrics.getRealisticAPR, Rdiv. cbv zeta.
  set (i := / JS.floor (s * / 32)). field.
Qed.

(** X7. With at least 32 ETH at stake and non-negative participation,
    adoption and reward per block, the realistic APR is at least the
    theoretical APR scaled by the participation, and it does not increase
    when the stake grows. *)
Theorem getRealisticAPR_non_increasing (s1 s2 p adoption reward : R) :
  32 <= s1 -> s1 <= s2 -> 0 <= p -> 0 <= adoption -> 0 <= reward ->
  getTheoreticalAPR s2 * p <= Metrics.getRealisticAPR s2 p adoption reward /\
  Metrics.getRealisticAPR s2 p adoption reward <=
  Metrics.getRealisticAPR s1 p adoption reward.
Proof.
  intros H1 H12 Hp Ha Hr.
  rewrite !realistic_mev_part.
  assert (T : getTheoreticalAPR s2 <= getTheoreticalAPR s1).
  { apply getTheoreticalAPR_antitone; [unfold gwei; lra | assumption]. }
  assert (N1 : 1 <= JS.floor (s1 / 32)) by (apply floor_ge_1; lra).
  assert (N12 : JS.floor (s1 / 32) <= JS.floor (s2 / 32)) by (apply floor_le; lra).
  assert (E : 0 <= EPOCHS_PER_YEAR * 100 * reward * adoption).
  { unfold EPOCHS_PER_YEAR. rewrite EPOCHS_PER_DAY_value.
    assert (0 <= reward * adoption) by now apply Rmult_le_pos. nra. }
  set (k := EPOCHS_PER_YEAR * 100 * reward * adoption) in *.
  set (n1 := JS.floor (s1 / 32)) in *. set (n2 := JS.floor (s2 / 32)) in *.
  assert (I : / n2 <= / n1) by (apply Rinv_le_contravar; lra).
  assert (I2 : 0 < / n2) by (apply Rinv_0_lt_compat; lra).
  unfold Rdiv. split.
  - assert (0 <= k * / n2) by (apply Rmult_le_pos; lra). lra.
  - assert (k * / n2 <= k * / n1) by (apply Rmult_le_compat_l; assumption).
    assert (getTheoreticalAPR s2 * p <= getTheoreticalAPR s1 * p)
      by (apply Rmult_le_compat_r; assumption).
    lra.
Qed.

Lemma getRealisticAPR_non_increasing_witness :
  getTheoreticalAPR 34500000 * Metrics.defaultNetworkParticipation <=
    Metrics.getRealisticAPR 34500000 Metrics.defaultNetworkParticipation
      Metrics.defaultMevBoostAdoption Metrics.defaultAverageMEVRewardPerBlock /\
  Metrics.getRealisticAPR 34500000 Metrics.defaultNetworkParticipation
    Metrics.defaultMevBoostAdoption Metrics.defaultAverageMEVRewardPerBlock <=
  Metrics.getRealisticAPR 32 Metrics.defaultNetworkParticipation
    Metrics.defaultMevBoostAdoption Metrics.defaultAverageMEVRewardPerBlock.
Proof.
  apply (getRealisticAPR_non_increasing 32 34500000);
    unfold Metrics.defaultNetworkParticipation, Metrics.defaultMevBoostAdoption,
      Metrics.defaultAverageMEVRewardPerBlock; lra.
Defined.

(** ** The regime chain *)

(** Each row of the transition matrix is a probability distribution:
    its three entries are non-negative and add up to 1. *)
Theorem transition_rows_are_distributions (r : FeeRegime) :
  isDistribution (TRANSITION_MATRIX r).
Proof. unfold isDistribution. destruct r; simpl; lra. Qed.

Lemma stepProbabilities_distribution (c e h : R) :
  0 <= c -> 0 <= e -> 0 <= h -> c + e + h = 1 ->
  let '(c', e', h') := stepProbabilities (c, e, h) in
  0 <= c' /\ 0 <= e' /\ 0 <= h' /\ c' + e' + h' = 1.
Proof.
  intros Hc He Hh S. unfold stepProbabilities. simpl. repeat split; lra.
Qed.

Lemma occupancy_distribution (r : FeeRegime) (d : nat) :
  0 <= probabilityOf (occupancy r d) calm /\
  0 <= probabilityOf (occupancy r d) elevated /\
  0 <= probabilityOf (occupancy r d) hot /\
  probabilityOf (occupancy r d) calm + probabilityOf (occupancy r d) elevated +
  probabilityOf (occupancy r d) hot = 1.
Proof.
  induction d as [|d IH].
  - destruct r; simpl; lra.
  - unfold occupancy in *. rewrite Nat.iter_succ.
    destruct (Nat.iter d stepProbabilities (initialProbabilities r)) as [[c e] h].
    cbn [probabilityOf] in IH. destruct IH as (Hc & He & Hh & S).
    pose proof (stepProbabilities_distribution c e h Hc He Hh S) as P.
    destruct (stepProbabilities (c, e, h)) as [[c' e'] h'].
    cbn [probabilityOf]. exact P.
Qed.

(** X8. The occupancy probabilities propagated by [forecastExecutionYield]
    stay a distribution whatever the starting regime and the number of
    days, and the regime it reports is one of greatest probability. *)
Theorem forecast_regime_most_probable (y : R) (r : FeeRegime) (d : nat) (v : R) :
  let p := occupancy r d in
  let reported := regime (forecastExecutionYield y r d v) in
  (0 <= probabilityOf p calm /\ 0 <= probabilityOf p elevated /\
   0 <= probabilityOf p hot /\
   probabilityOf p calm + probabilityOf p elevated + probabilityOf p hot = 1) /\
  (forall other, probabilityOf p other <= probabilityOf p reported).
Proof.
  intros p reported. split; [apply occupancy_distribution|].
  subst reported. unfold forecastExecutionYield. cbn [regime]. fold (occupancy r d).
  fold p. destruct p as [[c e] h]. unfold mostLikelyRegime, JS.geb.
  intros other.
  destruct (Rge_dec c e), (Rge_dec c h), (Rge_dec e h);
    cbn [andb probabilityOf]; destruct other; lra.
Qed.

(** ** The execution forecast *)

(** X9. With no day ahead the forecast keeps the current regime, blends
    the current yield with the regime target in the proportion 70/30, and
    its confidence band is the single value of the annualized APR. *)
Theorem forecast_today (y : R) (r : FeeRegime) (v : R) :
  let f := forecastExecutionYield y r 0 v in
  regime f = r /\
  dailyYieldETH f = y * (7 / 10) + target (MEAN_REVERSION r) * (3 / 10) /\
  lower (Execution.confidence f) = annualizedAPR f /\
  upper (Execution.confidence f) = annualizedAPR f.
Proof.
  intros f. subst f. unfold forecastExecutionYield.
  unfold Nat.iter.
  cbn [regime dailyYieldETH Execution.confidence lower upper annualizedAPR nat_rect INR].
  rewrite sqrt_0.
  replace (Rpower (5 / 10) (0 / halfLife (MEAN_REVERSION r))) with 1.
  2:{ unfold Rdiv at 2. rewrite Rmult_0_l. unfold Rpower. now rewrite Rmult_0_l, exp_0. }
  assert (M : mostLikelyRegime (initialProbabilities r) = r).
  { unfold mostLikelyRegime, initialProbabilities, JS.geb.
    destruct r; cbn [FeeRegime_eqb];
      repeat match goal with
             | |- context [Rge_dec ?a ?b] => destruct (Rge_dec a b); try lra
             end; reflexivity. }
  rewrite M. repeat split; try field.
Qed.

(** X10. The annualized APR of the forecast is split 40/60 between
    priority fees and MEV, and for a non-negative current yield it is
    positive and lies inside its confidence band. *)
Theorem forecast_split_and_band (y : R) (r : FeeRegime) (d : nat) (v : R) :
  0 <= y ->
  let f := forecastExecutionYield y r d v in
  priorityFees (Execution.components f) = annualizedAPR f * (4 / 10) /\
  mevRewards (Execution.components f) = annualizedAPR f * (6 / 10) /\
  0 < lower (Execution.confidence f) <= annualizedAPR f /\
  annualizedAPR f <= upper (Execution.confidence f).
Proof.
  intros Hy f.
  pose proof (forecast_annualizedAPR_pos y r d v Hy) as P. fold f in P.
  subst f. unfold forecastExecutionYield in *.
  cbn [priorityFees mevRewards Execution.components Execution.confidence lower upper
       annualizedAPR] in *.
  set (a := _ * 365 / 32 * 100) in *.
  pose proof (sqrt_pos (INR d)) as Q.
  set (u := 1 + sqrt (INR d) * (1 / 10)).
  assert (U : 1 <= u) by (unfold u; lra).
  split; [unfold a; field|]. split; [unfold a; field|].
  assert (I : 0 < / u <= 1).
  { split; [apply Rinv_0_lt_compat; lra|].
    rewrite <- Rinv_1. apply Rinv_le_contravar; lra. }
  unfold Rdiv. split; [split|]; nra.
Qed.

Lemma forecast_split_and_band_witness :
  let f := forecastExecutionYield (2 / 1000) elevated 30 1078125 in
  priorityFees (Execution.components f) = annualizedAPR f * (4 / 10) /\
  mevRewards (Execution.components f) = annualizedAPR f * (6 / 10) /\
  0 < lower (Execution.confidence f) <= annualizedAPR f /\
  annualizedAPR f <= upper (Execution.confidence f).
Proof. apply (forecast_split_and_band (2 / 1000) elevated 30 1078125). lra. Defined.

(** X11. For a fixed regime and horizon the forecast grows with the
    current yield, and its daily yield stays between the blends of the
    smaller and of the larger of current yield and regime target with the
    extreme targets 0.0005 and 0.004. *)
Theorem forecast_monotone_in_yield (y1 y2 : R) (r : FeeRegime) (d : nat) (v : R) :
  y1 <= y2 ->
  annualizedAPR (forecastExecutionYield y1 r d v) <=
  annualizedAPR (forecastExecutionYield y2 r d v) /\
  Rmin y1 (target (MEAN_REVERSION r)) * (7 / 10) + 5 / 10000 * (3 / 10) <=
    dailyYieldETH (forecastExecutionYield y1 r d v) <=
  Rmax y1 (target (MEAN_REVERSION r)) * (7 / 10) + 4 / 1000 * (3 / 10).
Proof.
  intros H. unfold forecastExecutionYield. cbn [annualizedAPR dailyYieldETH].
  set (decay := Rpower (5 / 10) (INR d / halfLife (MEAN_REVERSION r))).
  assert (D0 : 0 < decay) by apply Rpower_half_pos.
  assert (D1 : decay <= 1).
  { apply Rpower_half_le_1. unfold Rdiv. apply Rmult_le_pos; [apply pos_INR|].
    left. apply Rinv_0_lt_compat, halfLife_pos. }
  set (e := mostLikelyRegime _).
  pose proof (target_ge e) as T0. pose proof (target_le e) as T1.
  set (t := target (MEAN_REVERSION r)).
  pose proof (Rmin_l y1 t). pose proof (Rmin_r y1 t).
  pose proof (Rmax_l y1 t). pose proof (Rmax_r y1 t).
  set (lo := Rmin y1 t) in *. set (hi := Rmax y1 t) in *.
  split; [nra|]. split; nra.
Qed.

Lemma forecast_monotone_in_yield_witness :
  annualizedAPR (forecastExecutionYield (1 / 1000) hot 30 1078125) <=
  annualizedAPR (forecastExecutionYield (5 / 1000) hot 30 1078125) /\
  Rmin (1 / 1000) (target (MEAN_REVERSION hot)) * (7 / 10) + 5 / 10000 * (3 / 10) <=
    dailyYieldETH (forecastExecutionYield (1 / 1000) hot 30 1078125) <=
  Rmax (1 / 1000) (target (MEAN_REVERSION hot)) * (7 / 10) + 4 / 1000 * (3 / 10).
Proof. apply (forecast_monotone_in_yield (1 / 1000) (5 / 1000) hot 30 1078125). lra. Defined.

(** ** Sorting records that have distinct timestamps *)

Section SortUnique.

Context {A : Type} (key : A -> Z) (cmp : A -> A -> Z).
Hypothesis cmp_key : forall a b, cmp a b = (key a - key b)%Z.

Local Abbreviation increasing := (StronglySorted (fun a b => (key a < key b)%Z)).

Lemma insert_increasing (x : A) (l : list A) :
  increasing l -> Forall (fun y => key y <> key x) l -> increasing (JS.insert cmp x l).
Proof.
  induction l as [|y t IH]; intros S D; cbn [JS.insert].
  - constructor; constructor.
  - apply StronglySorted_inv in S. destruct S as [St Ft].
    apply Forall_cons_iff in D. destruct D as [Dy Dt].
    rewrite cmp_key. destruct (Z.leb_spec (key x - key y) 0) as [L | G].
    + constructor; [now constructor|].
      constructor; [lia|].
      eapply Forall_impl; [|exact Ft]. cbn beta. intros z Hz. lia.
    + constructor; [now apply IH|].
      apply (Permutation_Forall (Permutation_sym (insert_perm cmp x t))).
      constructor; [lia | assumption].
Qed.

Lemma sort_increasing (l : list A) :
  NoDup (map key l) -> increasing (JS.sort cmp l).
Proof.
  induction l as [|x t IH]; intros N; cbn [JS.sort]; [constructor|].
  cbn [map] in N. apply NoDup_cons_iff in N. destruct N as [Nx Nt].
  apply insert_increasing; [now apply IH|].
  apply (Permutation_Forall (Permutation_sym (sort_perm cmp t))).
  apply Forall_forall. intros y Hy E. apply Nx. rewrite <- E. now apply in_map.
Qed.

Lemma increasing_unique (l1 : list A) :
  forall l2, increasing l1 -> increasing l2 -> Permutation l1 l2 -> l1 = l2.
Proof.
  induction l1 as [|a t1 IH]; intros l2 S1 S2 P.
  - apply Permutation_nil in P. now subst.
  - destruct l2 as [|b t2]; [apply Permutation_sym, Permutation_nil in P; discriminate|].
    apply StronglySorted_inv in S1. destruct S1 as [S1 F1].
    apply StronglySorted_inv in S2. destruct S2 as [S2 F2].
    assert (E : a = b).
    { assert (Ia : In a (b :: t2)) by (apply (Permutation_in _ P); now left).
      assert (Ib : In b (a :: t1))
        by (apply (Permutation_in _ (Permutation_sym P)); now left).
      destruct Ia as [-> | Ia]; [reflexivity|].
      destruct Ib as [-> | Ib]; [reflexivity|].
      rewrite Forall_forall in F1, F2.
      pose proof (F1 b Ib). pose proof (F2 a Ia). lia. }
    subst b. f_equal. apply IH; try assumption.
    now apply Permutation_cons_inv in P.
Qed.

(** Two orderings of records with distinct keys have the same sorted copy. *)
Lemma sort_of_permutation (l1 l2 : list A) :
  Permutation l1 l2 -> NoDup (map key l1) -> JS.sort cmp l1 = JS.sort cmp l2.
Proof.
  intros P N. apply increasing_unique.
  - now apply sort_increasing.
  - apply sort_increasing.
    apply (Permutation_NoDup (Permutation_map key P) N).
  - eapply perm_trans; [apply sort_perm|].
    eapply perm_trans; [exact P|]. apply Permutation_sym, sort_perm.
Qed.

End SortUnique.

(** ** Regime detection *)



(** X13. The detection does not depend on the order of the records when
    their timestamps are pairwise distinct. *)
Theorem detectRegime_order_independent (h1 h2 : list ExecutionDataPoint)
  (activeValidators : R) :
  Permutation h1 h2 -> NoDup (map timestamp h1) ->
  detectRegime h1 activeValidators = detectRegime h2 activeValidators.
Proof.
  intros P N.
  destruct h1 as [|a1 t1].
  - apply Permutation_nil in P. now subst.
  - destruct h2 as [|a2 t2]; [apply Permutation_sym, Permutation_nil in P; discriminate|].
    apply detectRegime_by_sort; try discriminate.
    apply (sort_of_permutation (fun d => (- timestamp d)%Z)).
    + intros a b. unfold Execution.byTimestampDesc. lia.
    + assumption.
    + rewrite <- (map_map timestamp Z.opp).
      apply Finite.Injective_map_NoDup; [|assumption].
      intros x y H. lia.
Qed.

Lemma detectRegime_order_independent_witness :
  detectRegime Sample.newestFirst 1078125 = detectRegime Sample.oldestFirst 1078125.
Proof.
  apply detectRegime_order_independent.
  - apply Permutation_rev.
  - unfold Sample.newestFirst, Sample.rewards. cbn [map timestamp].
    repeat (constructor; [cbn [In]; intros H; repeat destruct H as [H | H];
                          try discriminate H; try exact H|]).
    constructor.
Defined.

Lemma sum_lt_bound (c : R) (l : list R) :
  l <> [] -> Forall (fun x => x < c) l -> Stats.sum l < c * INR (length l).
Proof.
  intros N F. induction F as [|x t Hx Ft IH]; [contradiction|].
  cbn [Stats.sum fold_right length]. rewrite S_INR.
  destruct t as [|y t'].
  - cbn [fold_right length INR]. lra.
  - assert (Stats.sum (y :: t') < c * INR (length (y :: t'))) by (apply IH; discriminate).
    unfold Stats.sum in *. lra.
Qed.

Lemma sum_ge_bound (c : R) (l : list R) :
  Forall (fun x => c <= x) l -> c * INR (length l) <= Stats.sum l.
Proof.
  intros F. induction F as [|x t Hx Ft IH].
  - cbn. lra.
  - cbn [Stats.sum fold_right length]. rewrite S_INR. unfold Stats.sum in IH. lra.
Qed.

Lemma length_pos_INR {A : Type} (l : list A) : l <> [] -> 0 < INR (length l).
Proof.
  intros N. destruct l as [|x t]; [contradiction|].
  cbn [length]. rewrite S_INR. pose proof (pos_INR (length t)). lra.
Qed.

Lemma mean_lt_bound (c : R) (l : list R) :
  l <> [] -> Forall (fun x => x < c) l -> Stats.mean l < c.
Proof.
  intros N F. pose proof (sum_lt_bound c l N F). pose proof (length_pos_INR l N).
  unfold Stats.mean. apply Rmult_lt_reg_r with (INR (length l)); [assumption|].
  replace (Stats.sum l / INR (length l) * INR (length l)) with (Stats.sum l)
    by (field; lra).
  assumption.
Qed.

Lemma mean_ge_bound (c : R) (l : list R) :
  l <> [] -> Forall (fun x => c <= x) l -> c <= Stats.mean l.
Proof.
  intros N F. pose proof (sum_ge_bound c l F). pose proof (length_pos_INR l N).
  unfold Stats.mean. apply Rmult_le_reg_r with (INR (length l)); [assumption|].
  replace (Stats.sum l / INR (length l) * INR (length l)) with (Stats.sum l)
    by (field; lra).
  assumption.
Qed.

Lemma classifyYield_calm (y : R) : classifyYield y = calm <-> y < 1 / 1000.
Proof.
  unfold classifyYield, calm_max, elevated_max.
  destruct (Rlt_dec y (1 / 1000)); [tauto|].
  destruct (Rlt_dec y (3 / 1000)); split; intros; try discriminate; lra.
Qed.

Lemma classifyYield_elevated (y : R) :
  classifyYield y = elevated <-> 1 / 1000 <= y < 3 / 1000.
Proof.
  unfold classifyYield, calm_max, elevated_max.
  destruct (Rlt_dec y (1 / 1000)); [split; intros; try discriminate; lra|].
  destruct (Rlt_dec y (3 / 1000)); split; intros; try discriminate; try lra; reflexivity.
Qed.

Lemma classifyYield_hot (y : R) : classifyYield y = hot <-> 3 / 1000 <= y.
Proof.
  unfold classifyYield, calm_max, elevated_max.
  destruct (Rlt_dec y (1 / 1000)); [split; intros; try discriminate; lra|].
  destruct (Rlt_dec y (3 / 1000)); split; intros; try discriminate; try lra; reflexivity.
Qed.

(** The mean of yields of one regime is a yield of that regime. *)
Lemma classifyYield_mean (r : FeeRegime) (l : list R) :
  l <> [] -> Forall (fun y => classifyYield y = r) l -> classifyYield (Stats.mean l) = r.
Proof.
  intros N F. destruct r.
  - apply classifyYield_calm, mean_lt_bound; [assumption|].
    eapply Forall_impl; [|exact F]. intros y. apply classifyYield_calm.
  - apply classifyYield_elevated. split.
    + apply mean_ge_bound; [assumption|].
      eapply Forall_impl; [|exact F]. intros y Hy. now apply classifyYield_elevated in Hy.
    + apply mean_lt_bound; [assumption|].
      eapply Forall_impl; [|exact F]. intros y Hy. now apply classifyYield_elevated in Hy.
  - apply classifyYield_hot, mean_ge_bound; [assumption|].
    eapply Forall_impl; [|exact F]. intros y. apply classifyYield_hot.
Qed.

(** The regime reported for a non-empty history is the class of the mean
    yield of the seven most recent records. *)
Lemma detectRegime_classifies (first : ExecutionDataPoint)
  (others : list ExecutionDataPoint) (v : R) :
  currentRegime (detectRegime (first :: others) v) =
  classifyYield
    (Stats.mean (map (yieldOf v)
                   (JS.slice0 7 (JS.sort Execution.byTimestampDesc (first :: others))))).
Proof.
  unfold detectRegime. cbv zeta. cbn [currentRegime].
  fold (yieldOf v).
  change (fun d : ExecutionDataPoint => (priorityFeesETH d + mevRewardsETH d) / v)
    with (yieldOf v).
  set (avgYield := Stats.mean _).
  unfold classifyYield.
  destruct (Rlt_dec avgYield calm_max); [reflexivity|].
  destruct (Rlt_dec avgYield elevated_max); reflexivity.
Qed.

Lemma FeeRegime_eqb_refl (r : FeeRegime) : FeeRegime_eqb r r = true.
Proof. now destruct r. Qed.

Lemma countDaysInRegime_all (r : FeeRegime) (v : R) (l : list ExecutionDataPoint) :
  Forall (fun d => classifyYield (yieldOf v d) = r) l ->
  countDaysInRegime r v l = length l.
Proof.
  induction 1 as [|d t Hd _ IH]; cbn [countDaysInRegime length]; [reflexivity|].
  unfold yieldOf in Hd. rewrite Hd, FeeRegime_eqb_refl, IH. reflexivity.
Qed.

(** X14. When every record of a non-empty history has a per-validator
    yield of the same regime, that regime is the one detected and every
    record counts as a day in it. *)
Theorem detectRegime_uniform_history (history : list ExecutionDataPoint)
  (activeValidators : R) (r : FeeRegime) :
  history <> [] ->
  Forall (fun d => classifyYield (yieldOf activeValidators d) = r) history ->
  currentRegime (detectRegime history activeValidators) = r /\
  daysInRegime (detectRegime history activeValidators) = length history.
Proof.
  intros N F. destruct history as [|first others]; [contradiction|].
  set (sorted := JS.sort Execution.byTimestampDesc (first :: others)).
  assert (Fs : Forall (fun d => classifyYield (yieldOf activeValidators d) = r) sorted).
  { apply (Permutation_Forall
             (Permutation_sym (sort_perm Execution.byTimestampDesc (first :: others)))).
    exact F. }
  assert (C : currentRegime (detectRegime (first :: others) activeValidators) = r).
  { rewrite detectRegime_classifies. fold sorted.
    apply classifyYield_mean.
    - intros E. apply map_eq_nil in E.
      destruct sorted as [|s0 st] eqn:S; [now apply sort_nonempty in S | discriminate].
    - apply Forall_map. apply Forall_forall. intros d Hd.
      apply slice0_In in Hd. rewrite Forall_forall in Fs. now apply Fs. }
  split; [exact C|].
  assert (D : daysInRegime (detectRegime (first :: others) activeValidators) =
              countDaysInRegime
                (currentRegime (detectRegime (first :: others) activeValidators))
                activeValidators sorted) by reflexivity.
  rewrite D, C, countDaysInRegime_all by assumption.
  apply Permutation_length, sort_perm.
Qed.

Lemma detectRegime_uniform_history_witness :
  currentRegime (detectRegime Sample.boom 1078125) = hot /\
  daysInRegime (detectRegime Sample.boom 1078125) = length Sample.boom.
Proof.
  apply detectRegime_uniform_history; [discriminate|].
  repeat constructor. apply classifyYield_hot.
  unfold yieldOf, Sample.rewards. cbn [priorityFeesETH mevRewardsETH]. lra.
Defined.

(** ** The mock execution history *)

Lemma mockLoop_clock (remaining : nat) (now : Z) (v : R) :
  forall (r : FeeRegime) (k : nat) (w : JS.World),
    JS.clock (snd (mockLoop remaining now v r k w)) = JS.clock w /\
    JS.randoms (snd (mockLoop remaining now v r k w)) = JS.randoms w.
Proof.
  induction remaining as [|i IH]; intros r k w.
  - cbn [mockLoop snd]. now split.
  - cbn [mockLoop]. unfold JS.random. cbn [JS.drawn JS.clock JS.randoms].
    destruct (Rlt_dec _ _); [|destruct (Rlt_dec _ _)];
      match goal with
      | |- context [mockLoop i now v ?r' ?k' ?w'] =>
          specialize (IH r' k' w');
          destruct (mockLoop i now v r' k' w') as [rest w'']
      end;
      cbn [snd JS.clock JS.randoms] in *; exact IH.
Qed.

Lemma mockLoop_timestamps (remaining : nat) (now : Z) (v : R) :
  forall (r : FeeRegime) (k : nat) (w : JS.World),
    map timestamp (fst (mockLoop remaining now v r k w)) =
    map (fun i => JS.addDays now (- Z.of_nat i)) (rev (seq 0 remaining)).
Proof.
  induction remaining as [|i IH]; intros r k w.
  - reflexivity.
  - rewrite seq_S, rev_app_distr. cbn [rev app map Nat.add].
    cbn [mockLoop]. unfold JS.random. cbn [JS.drawn JS.clock JS.randoms].
    destruct (Rlt_dec _ _); [|destruct (Rlt_dec _ _)];
      match goal with
      | |- context [mockLoop i now v ?r' ?k' ?w'] =>
          specialize (IH r' k' w');
          destruct (mockLoop i now v r' k' w') as [rest w'']
      end;
      cbn [fst map timestamp] in *; now rewrite IH.
Qed.

(** X15. The mock execution history of [days] days has [days + 1]
    records, one per day, listed oldest first and ending at the current
    time; producing it draws four random values per record and leaves the
    clock alone. *)
Theorem generateMockExecutionHistory_shape (days : nat) (activeValidators : R)
  (w : JS.World) :
  let history := fst (generateMockExecutionHistory days activeValidators w) in
  let w' := snd (generateMockExecutionHistory days activeValidators w) in
  length history = S days /\
  map timestamp history =
    map (fun i => JS.addDays (JS.clock w) (- Z.of_nat i)) (rev (seq 0 (S days))) /\
  StronglySorted Z.lt (map timestamp history) /\
  JS.drawn w' = (JS.drawn w + 4 * S days)%nat /\
  JS.clock w' = JS.clock w.
Proof.
  intros history w'. subst history w'. unfold generateMockExecutionHistory.
  pose proof (mockLoop_timestamps (S days) (JS.clock w) activeValidators calm 0 w) as T.
  repeat split.
  - rewrite <- (length_map timestamp), T, length_map, length_rev, length_seq. reflexivity.
  - exact T.
  - rewrite T. clear T. generalize (S days) as n. intros n.
    induction n as [|n IH]; [constructor|].
    rewrite seq_S, rev_app_distr. cbn [rev app map Nat.add].
    constructor; [exact IH|].
    apply Forall_forall. intros z Hz. apply in_map_iff in Hz.
    destruct Hz as (i & <- & Hi). apply in_rev, in_seq in Hi.
    unfold JS.addDays, JS.msPerDay. lia.
  - apply mockLoop_drawn.
  - apply mockLoop_clock.
Qed.

Lemma mock_point (v r2 r3 r4 : R) (r : FeeRegime) (date : Z) :
  0 <= v -> 0 <= r2 < 1 -> 0 <= r3 < 1 -> 0 <= r4 < 1 ->
  let baseYield := target (MEAN_REVERSION r) * v in
  let totalYield := Rmax 0 (baseYield + (r2 - 5 / 10) * baseYield * (4 / 10)) in
  let feeRatio := 35 / 100 + r3 * (1 / 10) in
  mockRecord v
    {| timestamp := date;
       priorityFeesETH := totalYield * feeRatio;
       mevRewardsETH := totalYield * (1 - feeRatio);
       avgGasPrice := match r with hot => 50 | elevated => 25 | calm => 10 end + r4 * 10;
       blockCount := 7200 |}.
Proof.
  intros Hv H2 H3 H4 baseYield totalYield feeRatio.
  unfold mockRecord. cbn [priorityFeesETH mevRewardsETH avgGasPrice blockCount].
  pose proof (target_pos r) as T.
  assert (B : 0 <= baseYield) by (unfold baseYield; nra).
  assert (E : totalYield = baseYield + (r2 - 5 / 10) * baseYield * (4 / 10)).
  { unfold totalYield. apply Rmax_right. nra. }
  assert (Y0 : 8 / 10 * baseYield <= totalYield <= 12 / 10 * baseYield) by (rewrite E; nra).
  assert (Y : 0 <= totalYield) by lra.
  assert (F : 35 / 100 <= feeRatio <= 45 / 100) by (unfold feeRatio; lra).
  replace (totalYield * feeRatio + totalYield * (1 - feeRatio)) with totalYield by ring.
  repeat split; try nra.
  - exists r. fold baseYield. lra.
  - destruct r; lra.
  - destruct r; lra.
Qed.

Lemma mockLoop_records (remaining : nat) (now : Z) (v : R) :
  0 <= v ->
  forall (r : FeeRegime) (k : nat) (w : JS.World),
    unitRandoms w ->
    Forall (mockRecord v) (fst (mockLoop remaining now v r k w)).
Proof.
  intros Hv. induction remaining as [|i IH]; intros r k w U.
  - constructor.
  - cbn [mockLoop]. unfold JS.random. cbn [JS.drawn JS.clock JS.randoms].
    pose proof (U (S (JS.drawn w))) as U2.
    pose proof (U (S (S (JS.drawn w)))) as U3.
    pose proof (U (S (S (S (JS.drawn w))))) as U4.
    destruct (Rlt_dec _ _); [|destruct (Rlt_dec _ _)];
      match goal with
      | |- context [mockLoop i now v ?r' ?k' ?w'] =>
          specialize (IH r' k' w' U);
          destruct (mockLoop i now v r' k' w') as [rest w'']
      end;
      cbn [fst] in *; (constructor; [|exact IH]);
      now apply mock_point.
Qed.

(** X16. When the random values lie in the interval from 0 to 1 and the
    validator count is not negative, every record of the mock history has
    non-negative rewards whose total is within 20% of the target of some
    regime times the validator count, a priority-fee share between 35% and
    45%, a gas price from 10 to 60 and 7200 blocks. *)
Theorem generateMockExecutionHistory_records (days : nat) (activeValidators : R)
  (w : JS.World) :
  unitRandoms w -> 0 <= activeValidators ->
  Forall (mockRecord activeValidators)
         (fst (generateMockExecutionHistory days activeValidators w)).
Proof.
  intros U Hv. unfold generateMockExecutionHistory.
  now apply mockLoop_records.
Qed.

Lemma sample_world_unit : unitRandoms Sample.world.
Proof. intros n. cbn. lra. Qed.

Lemma generateMockExecutionHistory_records_witness :
  Forall (mockRecord 1078125) (fst (generateMockExecutionHistory 90 1078125 Sample.world)).
Proof.
  apply generateMockExecutionHistory_records; [exact sample_world_unit | lra].
Defined.

(** ** The staking trend *)

Lemma dailyChangesFrom_flat (s : R) (rest : list HistoricalDataPoint) :
  forall previous,
    History.totalStakedETH previous = s ->
    Forall (fun p => History.totalStakedETH p = s) rest ->
    Forall (fun x => x = 0) (dailyChangesFrom previous rest).
Proof.
  induction rest as [|p t IH]; intros previous Hp F; cbn [dailyChangesFrom].
  - constructor.
  - apply Forall_cons_iff in F. destruct F as [Hs Ft]. cbv zeta.
    destruct (Rgt_dec _ 0).
    + constructor; [|now apply IH].
      rewrite Hs, Hp. unfold Rdiv. ring.
    + now apply IH.
Qed.

Lemma sum_zeros (l : list R) : Forall (fun x => x = 0) l -> Stats.sum l = 0.
Proof. induction 1 as [|x t Hx _ IH]; cbn; [reflexivity|]. unfold Stats.sum in IH. lra. Qed.

Lemma mean_zeros (l : list R) : Forall (fun x => x = 0) l -> Stats.mean l = 0.
Proof. intros F. unfold Stats.mean. rewrite sum_zeros by assumption. unfold Rdiv. ring. Qed.

Lemma standardDeviation_zeros (l : list R) :
  Forall (fun x => x = 0) l -> Stats.standardDeviation l = 0.
Proof.
  intros F. unfold Stats.standardDeviation. cbv zeta.
  rewrite mean_zeros by assumption.
  rewrite sum_zeros.
  - unfold Rdiv. rewrite Rmult_0_l. apply sqrt_0.
  - apply Forall_map. eapply Forall_impl; [|exact F]. cbn beta. intros x ->. ring.
Qed.

(** X17. A history whose records all have the same stake has a zero
    daily growth rate and a zero volatility, whatever its length, order
    and timestamps. *)
Theorem calculateStakingTrend_flat (s : R) (history : list HistoricalDataPoint) :
  Forall (fun p => History.totalStakedETH p = s) history ->
  calculateStakingTrend history = {| dailyGrowthRate := 0; volatility := 0 |}.
Proof.
  intros F. unfold calculateStakingTrend.
  destruct (length history <? 2)%nat; [reflexivity|].
  assert (Fs : Forall (fun p => History.totalStakedETH p = s)
                      (JS.sort byTimestampAsc history)).
  { apply (Permutation_Forall (Permutation_sym (sort_perm byTimestampAsc history))).
    exact F. }
  destruct (JS.sort byTimestampAsc history) as [|first rest]; [reflexivity|].
  apply Forall_cons_iff in Fs. destruct Fs as [H0 Ft].
  pose proof (dailyChangesFrom_flat s rest first H0 Ft) as Z.
  destruct (dailyChangesFrom first rest) as [|c cs]; [reflexivity|].
  rewrite mean_zeros by assumption.
  destruct (1 <? length (c :: cs))%nat; [|reflexivity].
  now rewrite standardDeviation_zeros.
Qed.

Lemma calculateStakingTrend_flat_witness :
  calculateStakingTrend flatHistory = {| dailyGrowthRate := 0; volatility := 0 |}.
Proof.
  apply (calculateStakingTrend_flat 34500000).
  repeat constructor.
Defined.

(** X18. For two records the daily growth rate is the difference of the
    stakes divided by the number of days between the timestamps, and the
    volatility is 0, in whichever order the two records are given. *)
Theorem calculateStakingTrend_two_points (p1 p2 : HistoricalDataPoint) :
  (History.timestamp p1 < History.timestamp p2)%Z ->
  let rate :=
    (History.totalStakedETH p2 - History.totalStakedETH p1) /
    (IZR (History.timestamp p2 - History.timestamp p1) / (24 * 60 * 60 * 1000)) in
  calculateStakingTrend [p1; p2] = {| dailyGrowthRate := rate; volatility := 0 |} /\
  calculateStakingTrend [p2; p1] = {| dailyGrowthRate := rate; volatility := 0 |}.
Proof.
  intros H rate.
  assert (S1 : JS.sort byTimestampAsc [p1; p2] = [p1; p2]).
  { cbn [JS.sort JS.insert]. unfold byTimestampAsc.
    destruct (Z.leb_spec (History.timestamp p1 - History.timestamp p2) 0); [reflexivity|lia]. }
  assert (S2 : JS.sort byTimestampAsc [p2; p1] = [p1; p2]).
  { cbn [JS.sort JS.insert]. unfold byTimestampAsc.
    destruct (Z.leb_spec (History.timestamp p2 - History.timestamp p1) 0); [lia|reflexivity]. }
  assert (D : 0 < IZR (History.timestamp p2 - History.timestamp p1) / (24 * 60 * 60 * 1000)).
  { apply Rdiv_lt_0_compat; [|lra]. apply IZR_lt. lia. }
  assert (E : forall l, JS.sort byTimestampAsc l = [p1; p2] -> length l = 2%nat ->
                        calculateStakingTrend l =
                        {| dailyGrowthRate := rate; volatility := 0 |}).
  { intros l Sl Ll. unfold calculateStakingTrend. rewrite Sl, Ll.
    cbn [Nat.ltb Nat.leb dailyChangesFrom]. cbv zeta.
    destruct (Rgt_dec _ 0) as [_ | N]; [|exfalso; lra].
    cbn [length Nat.ltb Nat.leb]. f_equal.
    unfold Stats.mean, Stats.sum. cbn [fold_right length INR]. subst rate. field.
    lra. }
  split; apply E; auto.
Qed.

Lemma calculateStakingTrend_two_points_witness :
  let rate :=
    (History.totalStakedETH Sample.state - History.totalStakedETH Sample.earlier) /
    (IZR (History.timestamp Sample.state - History.timestamp Sample.earlier) /
     (24 * 60 * 60 * 1000)) in
  calculateStakingTrend [Sample.earlier; Sample.state] =
    {| dailyGrowthRate := rate; volatility := 0 |} /\
  calculateStakingTrend [Sample.state; Sample.earlier] =
    {| dailyGrowthRate := rate; volatility := 0 |}.
Proof.
  apply (calculateStakingTrend_two_points Sample.earlier Sample.state).
  reflexivity.
Defined.

(** ** Feedback and queue constraint *)

(** The APR feedback leaves the base growth rate unchanged at the
    target APR, adds one tenth of it per percentage point of APR, grows
    with the APR for a non-negative base rate, and keeps that rate
    non-negative as long as the APR is no more than 10 points below the
    target. *)
Theorem applyAPRFeedback_linear (base a1 a2 targetAPR : R) :
  0 <= base -> a1 <= a2 ->
  applyAPRFeedback base targetAPR targetAPR = base /\
  applyAPRFeedback base (a1 + 1) targetAPR - applyAPRFeedback base a1 targetAPR =
    base / 10 /\
  applyAPRFeedback base a1 targetAPR <= applyAPRFeedback base a2 targetAPR /\
  (targetAPR - 10 <= a1 -> 0 <= applyAPRFeedback base a1 targetAPR).
Proof.
  intros Hb H. unfold applyAPRFeedback. cbv zeta.
  repeat split; try field; try nra.
Qed.

Lemma applyAPRFeedback_linear_witness :
  applyAPRFeedback 40320 4 4 = 40320 /\
  applyAPRFeedback 40320 (3 + 1) 4 - applyAPRFeedback 40320 3 4 = 40320 / 10 /\
  applyAPRFeedback 40320 3 4 <= applyAPRFeedback 40320 5 4 /\
  (4 - 10 <= 3 -> 0 <= applyAPRFeedback 40320 3 4).
Proof. apply (applyAPRFeedback_linear 40320 3 5 4); lra. Defined.

(** The maximum daily stake change is 7200 ETH per unit of churn
    limit; it is at least 28 800 ETH and never decreases when the
    validator count grows. *)
Theorem getMaxDailyStakeChange_monotone (v1 v2 : R) :
  v1 <= v2 ->
  getMaxDailyStakeChange v1 = 7200 * getChurnLimit v1 /\
  28800 <= getMaxDailyStakeChange v1 <= getMaxDailyStakeChange v2.
Proof.
  intros H. unfold getMaxDailyStakeChange. rewrite EPOCHS_PER_DAY_value.
  pose proof (getChurnLimit_ge_4 v1).
  assert (getChurnLimit v1 <= getChurnLimit v2).
  { unfold getChurnLimit. apply Rle_max_compat_l, floor_le.
    unfold CHURN_LIMIT_QUOTIENT. lra. }
  repeat split; lra.
Qed.

Lemma getMaxDailyStakeChange_monotone_witness :
  getMaxDailyStakeChange 1000 = 7200 * getChurnLimit 1000 /\
  28800 <= getMaxDailyStakeChange 1000 <= getMaxDailyStakeChange 1078125.
Proof. apply (getMaxDailyStakeChange_monotone 1000 1078125). lra. Defined.

(** ** What every forecast point satisfies *)


Section DayFacts.

Variable latestState : HistoricalDataPoint.
Variable trend : StakingTrend.
Variable scenario : ScenarioParams.
Variable maxDailyChange : R.
Variable currentExecYield : R.
Variable baseRegime : FeeRegime.

Hypothesis volatility_trend : 0 <= volatility trend.
Hypothesis maxDailyChange_pos : 0 < maxDailyChange.



End DayFacts.



(** X20. [generateForecast] throws exactly when the history is empty:
    on every non-empty history it returns a list of points. *)
Theorem generateForecast_throws_only_on_empty (w : JS.World)
  (history : list HistoricalDataPoint) (monthsAhead : nat) (scenario : ScenarioParams)
  (executionHistory : option (list ExecutionDataPoint)) :
  (exists message,
     fst (generateForecast w history monthsAhead scenario executionHistory) =
     JS.Throw message) <-> history = [].
Proof.
  split.
  - intros (message & E). destruct history as [|first others]; [reflexivity|].
    destruct (generateForecast_run w first others monthsAhead scenario executionHistory)
      as (l & _ & E').
    rewrite E' in E. discriminate.
  - intros ->. now exists noHistoryMessage.
Qed.

(** ** What the forecast does not read *)

Section Unread.

Variable latestState : HistoricalDataPoint.
Variable trend : StakingTrend.
Variable scenario : ScenarioParams.
Variable maxDailyChange : R.
Variable currentExecYield : R.
Variable baseRegime : FeeRegime.

Lemma forecastLoop_queuePressure (pressure : R) (n : nat) :
  forall day st,
    forecastLoop latestState trend (withQueuePressure scenario pressure) maxDailyChange
      currentExecYield baseRegime n day st =
    forecastLoop latestState trend scenario maxDailyChange currentExecYield baseRegime
      n day st.
Proof.
  induction n as [|n IH]; intros day st; [reflexivity|].
  cbn [forecastLoop].
  change (forecastDay latestState trend (withQueuePressure scenario pressure)
            maxDailyChange currentExecYield baseRegime day st)
    with (forecastDay latestState trend scenario maxDailyChange currentExecYield
            baseRegime day st).
  destruct (forecastDay _ _ _ _ _ _ day st) as [p st'].
  now rewrite IH.
Qed.

Lemma forecastDay_stake_only (day : nat) (st st' : SimState) :
  currentStake st = currentStake st' ->
  fst (forecastDay latestState trend scenario maxDailyChange currentExecYield baseRegime
         day st) =
  fst (forecastDay latestState trend scenario maxDailyChange currentExecYield baseRegime
         day st') /\
  currentStake (snd (forecastDay latestState trend scenario maxDailyChange
                       currentExecYield baseRegime day st)) =
  currentStake (snd (forecastDay latestState trend scenario maxDailyChange
                       currentExecYield baseRegime day st')).
Proof.
  destruct st as [s v e x], st' as [s' v' e' x']. cbn [currentStake].
  intros <-. split; reflexivity.
Qed.

Lemma forecastLoop_stake_only (n : nat) :
  forall day st st',
    currentStake st = currentStake st' ->
    forecastLoop latestState trend scenario maxDailyChange currentExecYield baseRegime
      n day st =
    forecastLoop latestState trend scenario maxDailyChange currentExecYield baseRegime
      n day st'.
Proof.
  induction n as [|n IH]; intros day st st' E; [reflexivity|].
  cbn [forecastLoop].
  destruct (forecastDay_stake_only day st st' E) as [P S].
  destruct (forecastDay _ _ _ _ _ _ day st) as [p a].
  destruct (forecastDay _ _ _ _ _ _ day st') as [p' a'].
  cbn [fst snd] in P, S. subst p'. f_equal. now apply IH.
Qed.

End Unread.

(** X21. The forecast reads neither the queue pressure of the scenario
    nor the queues and validator count of the running state: changing
    [queuePressure] leaves the result of [generateForecast] unchanged, and
    the daily loop pushes the same points from two states that agree on
    the stake. *)
Theorem forecast_ignores_queues (w : JS.World) (history : list HistoricalDataPoint)
  (monthsAhead : nat) (scenario : ScenarioParams)
  (executionHistory : option (list ExecutionDataPoint)) (pressure : R)
  (latestState : HistoricalDataPoint) (trend : StakingTrend)
  (maxDailyChange currentExecYield : R) (baseRegime : FeeRegime)
  (days day : nat) (st st' : SimState) :
  currentStake st = currentStake st' ->
  generateForecast w history monthsAhead (withQueuePressure scenario pressure)
    executionHistory =
  generateForecast w history monthsAhead scenario executionHistory /\
  forecastLoop latestState trend scenario maxDailyChange currentExecYield baseRegime
    days day st =
  forecastLoop latestState trend scenario maxDailyChange currentExecYield baseRegime
    days day st'.
Proof.
  intros E. split; [|now apply forecastLoop_stake_only].
  unfold generateForecast.
  destruct history as [|first others]; [reflexivity|].
  destruct (JS.sort byTimestampDesc (first :: others)) as [|l rest]; [reflexivity|].
  destruct (match executionHistory with
            | Some supplied => (supplied, w)
            | None => generateMockExecutionHistory 90 (History.activeValidators l) w
            end) as [execHistory w1].
  cbn [feeRegimeBias withQueuePressure].
  now rewrite !forecastLoop_queuePressure.
Qed.

Lemma forecast_ignores_queues_witness :
  generateForecast Sample.world Sample.history 1 (withQueuePressure BULLISH_SCENARIO 3)
    (Some Sample.execution) =
  generateForecast Sample.world Sample.history 1 BULLISH_SCENARIO (Some Sample.execution) /\
  forecastLoop Sample.state Sample.trend40320 BULLISH_SCENARIO 115200 2 elevated 30 1
    (initialState Sample.state) =
  forecastLoop Sample.state Sample.trend40320 BULLISH_SCENARIO 115200 2 elevated 30 1
    {| currentStake := 34500000;
       currentValidators := 0;
       currentEntryQueue := 0;
       currentExitQueue := 90000 |}.
Proof.
  apply forecast_ignores_queues. reflexivity.
Defined.

(** ** The order of the history *)

Lemma calculateStakingTrend_of_permutation (h1 h2 : list HistoricalDataPoint) :
  Permutation h1 h2 -> NoDup (map History.timestamp h1) ->
  calculateStakingTrend h1 = calculateStakingTrend h2.
Proof.
  intros P N. unfold calculateStakingTrend.
  rewrite (Permutation_length P).
  rewrite (sort_of_permutation History.timestamp byTimestampAsc
             (fun a b => eq_refl) h1 h2 P N).
  reflexivity.
Qed.

Lemma latestStateOf_of_permutation (h1 h2 : list HistoricalDataPoint) :
  Permutation h1 h2 -> NoDup (map History.timestamp h1) ->
  latestStateOf h1 = latestStateOf h2.
Proof.
  intros P N. unfold latestStateOf.
  rewrite (sort_of_permutation (fun p => (- History.timestamp p)%Z) byTimestampDesc)
    with (l2 := h2); try assumption; [reflexivity | |].
  - intros a b. unfold byTimestampDesc. lia.
  - rewrite <- (map_map History.timestamp Z.opp).
    apply Finite.Injective_map_NoDup; [|assumption].
    intros x y H. lia.
Qed.

(** X22. When the timestamps of the history are pairwise distinct the
    result of [generateForecast] does not depend on the order of its
    records. *)
Theorem generateForecast_history_order (w : JS.World)
  (h1 h2 : list HistoricalDataPoint) (monthsAhead : nat) (scenario : ScenarioParams)
  (executionHistory : option (list ExecutionDataPoint)) :
  Permutation h1 h2 -> NoDup (map History.timestamp h1) ->
  generateForecast w h1 monthsAhead scenario executionHistory =
  generateForecast w h2 monthsAhead scenario executionHistory.
Proof.
  intros P N.
  pose proof (calculateStakingTrend_of_permutation h1 h2 P N) as T.
  pose proof (latestStateOf_of_permutation h1 h2 P N) as L.
  destruct h1 as [|a1 t1].
  - apply Permutation_nil in P. now subst.
  - destruct h2 as [|a2 t2]; [apply Permutation_sym, Permutation_nil in P; discriminate|].
    destruct (generateForecast_run w a1 t1 monthsAhead scenario executionHistory)
      as (l1 & L1 & E1).
    destruct (generateForecast_run w a2 t2 monthsAhead scenario executionHistory)
      as (l2 & L2 & E2).
    rewrite E1, E2. rewrite L, L2 in L1. injection L1 as <-.
    unfold dayPoint. now rewrite T.
Qed.

Lemma generateForecast_history_order_witness :
  generateForecast Sample.world [Sample.earlier; Sample.state] 6 DEFAULT_SCENARIO None =
  generateForecast Sample.world [Sample.state; Sample.earlier] 6 DEFAULT_SCENARIO None.
Proof.
  apply generateForecast_history_order.
  - apply perm_swap.
  - cbn [map History.timestamp Sample.earlier Sample.state].
    constructor; [|constructor; [intros []|constructor]].
    cbn [In]. intros [H | []]. discriminate H.
Defined.

(** ** How far the stake can move *)

Section Drift.

Variable latestState : HistoricalDataPoint.
Variable trend : StakingTrend.
Variable scenario : ScenarioParams.
Variable maxDailyChange : R.
Variable currentExecYield : R.
Variable baseRegime : FeeRegime.
Variable st0 : SimState.

Hypothesis maxDailyChange_pos : 0 < maxDailyChange.

Local Abbreviation stake_ d :=
  (currentStake (stateAfter latestState trend scenario maxDailyChange currentExecYield
                   baseRegime st0 d)).



End Drift.







(** ** The three scenarios together *)

Lemma dayPoint_dates (history : list HistoricalDataPoint)
  (latestState : HistoricalDataPoint) (scenario : ScenarioParams)
  (execHistory : list ExecutionDataPoint) (days : list nat) :
  map date (map (dayPoint history latestState scenario execHistory) days) =
  map (fun d => JS.addDays (History.timestamp latestState) (Z.of_nat d)) days.
Proof. rewrite map_map. apply map_ext. intros d. apply dayPoint_date. Qed.

Lemma execHistoryOf_drawn (w : JS.World) (latestState : HistoricalDataPoint)
  (executionHistory : option (list ExecutionDataPoint)) :
  JS.drawn (snd (execHistoryOf w latestState executionHistory)) =
  (JS.drawn w + match executionHistory with Some _ => 0 | None => 364 end)%nat.
Proof.
  destruct executionHistory as [supplied|]; cbn [execHistoryOf snd]; [lia|].
  unfold generateMockExecutionHistory. rewrite mockLoop_drawn. lia.
Qed.

(** X25. [compareScenarios] throws on an empty history without drawing
    anything; on a non-empty history it returns three forecasts of
    [monthsAhead] points each, with the same dates, and when the execution
    history is omitted it draws the random values of three mock histories,
    one for each scenario. *)
Theorem compareScenarios_shape (w : JS.World) (history : list HistoricalDataPoint)
  (monthsAhead : nat) (executionHistory : option (list ExecutionDataPoint)) :
  match history with
  | [] =>
      compareScenarios w history monthsAhead executionHistory =
      (JS.Throw noHistoryMessage, w)
  | _ :: _ =>
      exists comparison w',
        compareScenarios w history monthsAhead executionHistory =
          (JS.Ok comparison, w') /\
        length (baseline comparison) = monthsAhead /\
        map date (bullish comparison) = map date (baseline comparison) /\
        map date (bearish comparison) = map date (baseline comparison) /\
        JS.drawn w' =
          (JS.drawn w +
           match executionHistory with Some _ => 0 | None => 3 * 364 end)%nat
  end.
Proof.
  destruct history as [|first others]; [reflexivity|].
  unfold compareScenarios.
  destruct (generateForecast_run w first others monthsAhead DEFAULT_SCENARIO
              executionHistory) as (l & L & E1).
  rewrite E1.
  set (w1 := snd (execHistoryOf w l executionHistory)).
  destruct (generateForecast_run w1 first others monthsAhead BULLISH_SCENARIO
              executionHistory) as (l2 & L2 & E2).
  rewrite L in L2. injection L2 as <-. rewrite E2.
  set (w2 := snd (execHistoryOf w1 l executionHistory)).
  destruct (generateForecast_run w2 first others monthsAhead BEARISH_SCENARIO
              executionHistory) as (l3 & L3 & E3).
  rewrite L in L3. injection L3 as <-. rewrite E3.
  eexists. eexists. split; [reflexivity|].
  cbn [baseline bullish bearish].
  rewrite !dayPoint_dates.
  repeat split.
  - unfold snapshotDays. now rewrite !length_map, length_seq.
  - rewrite execHistoryOf_drawn. fold w2. unfold w2.
    rewrite execHistoryOf_drawn. fold w1. unfold w1.
    rewrite execHistoryOf_drawn.
    destruct executionHistory; lia.
Qed.

(** ** The APR estimated from epoch statistics *)

Lemma fold_left_sum (l : list R) :
  forall a, fold_left (fun a b => a + b) l a = a + Stats.sum l.
Proof.
  induction l as [|x t IH]; intros a; cbn [fold_left Stats.sum fold_right].
  - lra.
  - rewrite IH. unfold Stats.sum. lra.
Qed.

Lemma last_cons_default {A : Type} (t : list A) :
  forall c d, last (c :: t) d = last t c.
Proof.
  induction t as [|x t IH]; intros c d; [reflexivity|].
  change (last (c :: x :: t) d) with (last (x :: t) d).
  now rewrite !IH.
Qed.

Lemma rewardsFrom_length (rest : list Beacon.EpochStats) :
  forall previous, length (Beacon.rewardsFrom previous rest) = length rest.
Proof.
  induction rest as [|c t IH]; intros previous; cbn [Beacon.rewardsFrom length];
    [reflexivity | now rewrite IH].
Qed.

(** With a constant validator count the rewards telescope. *)
Lemma rewardsFrom_sum (v : R) (rest : list Beacon.EpochStats) :
  forall previous,
    Forall (fun e => Beacon.validatorsCount e = v) rest ->
    Stats.sum (Beacon.rewardsFrom previous rest) =
    (Beacon.totalValidatorBalance (last rest previous) -
     Beacon.totalValidatorBalance previous) / v.
Proof.
  induction rest as [|c t IH]; intros previous F.
  - cbn. unfold Rdiv. ring.
  - apply Forall_cons_iff in F. destruct F as [Hc Ft].
    rewrite last_cons_default.
    cbn [Beacon.rewardsFrom Stats.sum fold_right]. cbv zeta.
    fold (Stats.sum (Beacon.rewardsFrom c t)).
    rewrite IH, Hc by assumption. unfold Rdiv. ring.
Qed.

(** X26. From a single epoch the estimated APR is 0. From two or more,
    all with the same non-zero validator count, it is the balance gained
    between the first and the last epoch, per validator and per epoch
    elapsed, annualized and expressed as a percentage of 32 ETH. *)
Theorem estimateAPRFromEpochs_constant_validators (first second : Beacon.EpochStats)
  (rest : list Beacon.EpochStats) (v periodsPerYear : R) :
  v <> 0 ->
  Forall (fun e => Beacon.validatorsCount e = v) (second :: rest) ->
  Beacon.estimateAPRFromEpochs [first] periodsPerYear = 0 /\
  Beacon.estimateAPRFromEpochs (first :: second :: rest) periodsPerYear =
  (Beacon.totalValidatorBalance (last (second :: rest) first) -
   Beacon.totalValidatorBalance first) / v / INR (length (second :: rest)) *
  periodsPerYear / 32 * 100.
Proof.
  intros Hv F. split; [reflexivity|].
  unfold Beacon.estimateAPRFromEpochs.
  cbn [length Nat.ltb Nat.leb]. cbv zeta.
  rewrite fold_left_sum, Rplus_0_l, rewardsFrom_length.
  rewrite (rewardsFrom_sum v) by assumption.
  cbn [length]. unfold Rdiv. ring.
Qed.

Lemma estimateAPRFromEpochs_constant_validators_witness :
  Beacon.estimateAPRFromEpochs [epochOf 1 34500000] Beacon.defaultPeriodsPerYear = 0 /\
  Beacon.estimateAPRFromEpochs
    [epochOf 1 34500000; epochOf 2 34500012; epochOf 3 34500024]
    Beacon.defaultPeriodsPerYear =
  (Beacon.totalValidatorBalance
     (last [epochOf 2 34500012; epochOf 3 34500024] (epochOf 1 34500000)) -
   Beacon.totalValidatorBalance (epochOf 1 34500000)) / 1078125 /
  INR (length [epochOf 2 34500012; epochOf 3 34500024]) *
  Beacon.defaultPeriodsPerYear / 32 * 100.
Proof.
  apply estimateAPRFromEpochs_constant_validators.
  - lra.
  - repeat constructor.
Defined.
